(** * registry-monitor: the probe loop of [monitor.go]

    A shallow embedding of the registry monitor: the image reference
    builders, the two HTTP handlers, the probe steps and the loop of
    [runMonitor].  The container engine, the clock and the metric sinks are
    outside the program; every answer they give during one iteration of the
    loop is collected in a record [Engine], and every call the program makes
    to them is appended to a trace of [Event]s. *)

From Stdlib Require Import ZArith List String Ascii Bool Lia DecimalString.
Import ListNotations.

Open Scope string_scope.
Open Scope Z_scope.

(** ** Pieces of the Go runtime and standard library used by the program *)

Module Go.

(** [time.Duration]: an int64 count of nanoseconds. *)
Definition Duration := Z.
Definition Second : Duration := 1000000000.
Definition Minute : Duration := 60 * Second.

(** [strings.Join(elems, sep)]. *)
Fixpoint Join (elems : list string) (sep : string) : string :=
  match elems with
  | [] => ""
  | [x] => x
  | x :: rest => x ++ sep ++ Join rest sep
  end.

(** The verb [%t] of package fmt. *)
Definition fmt_t (b : bool) : string := if b then "true" else "false".

(** The verb [%v] of package fmt at an int64. *)
Definition fmt_v_int (n : Z) : string := NilZero.string_of_int (Z.to_int n).

(** [http.ResponseWriter] as the handlers use it: the status line is
    fixed by the first [WriteHeader], or implicitly to 200 by the first
    write of the body. *)
Record ResponseWriter : Type := mkResponseWriter {
  header : option Z;
  body : string
}.

Definition newResponseWriter : ResponseWriter :=
  {| header := None; body := "" |}.

Definition WriteHeader (code : Z) (w : ResponseWriter) : ResponseWriter :=
  match header w with
  | None => {| header := Some code; body := body w |}
  | Some _ => w
  end.

Definition Write (p : string) (w : ResponseWriter) : ResponseWriter :=
  let w := WriteHeader 200 w in
  {| header := header w; body := body w ++ p |}.

(** What the client receives once the handler has returned. *)
Definition response (w : ResponseWriter) : Z * string :=
  (match header w with Some c => c | None => 200 end, body w).

End Go.

Import Go.

(** ** Image references (monitor.go, lines 289-304) *)

Definition imagePath (repository : string) : string :=
  let fullRepoPath := Join [repository; "latest"] ":" in
  fullRepoPath.

Definition fullImageRef (registry repository baseImage : string) : string :=
  if negb (String.eqb baseImage "") then
    let imagePath := imagePath baseImage in
    let fullImageRef := Join [registry; repository; imagePath] "/" in
    fullImageRef
  else
    let imagePath := imagePath repository in
    let fullImageRef := Join [registry; imagePath] "/" in
    fullImageRef.

(** [stringInSlice] (lines 162-169). *)
Fixpoint stringInSlice (value : string) (list : list string) : bool :=
  match list with
  | [] => false
  | current :: rest =>
      if String.eqb current value then true else stringInSlice value rest
  end.

(** ** Configuration: the command-line flags (lines 34-52)

    The values are those left by [main] once the flags are parsed and, when
    neither base selector is given, [baseLayer] has been resolved. *)

Record Flags : Type := mkFlags {
  username : string;
  password : string;
  registryHost : string;
  repository : string;
  baseImage : string;
  publicBase : bool;
  baseLayer : string;
  testInterval : string;
  awsAccessKey : string;
  awsSecretKey : string;
  cloudwatchNamespace : string;
  cloudwatchSuccessMetric : string;
  cloudwatchFailureMetric : string;
  cloudwatchPullTimeMetric : string;
  cloudwatchPushTimeMetric : string
}.

(** ** The outside world *)

(** One entry of the list returned by [images.History]; only the two
    fields the program reads. *)
Record HistoryResponse : Type := mkHistory {
  ID : string;
  Tags : list string
}.

(** A Go [error] value: [None] is [nil]. *)
Definition error := option string.

Definition failed (err : error) : bool :=
  match err with Some _ => true | None => false end.

(** The answers of the container engine and of the clock during one
    iteration of the loop. *)
Record Engine : Type := mkEngine {
  pull_test : error;                        (* images.Pull, line 281 *)
  pull_elapsed : Duration;                  (* time.Since(pullStartTime) *)
  pull_base : error;                        (* images.Pull, line 318 *)
  history : list HistoryResponse + string;  (* images.History, line 328 *)
  remove : error;                           (* images.Remove, line 339 *)
  now_unix : Z;                             (* time.Now().Unix(), line 352 *)
  create : string + string;                 (* containers.CreateWithSpec: the ID *)
  commit : error;                           (* containers.Commit *)
  start : error;                            (* containers.Start *)
  kill : error;                             (* containers.Kill *)
  push : error;                             (* images.Push *)
  push_elapsed : Duration                   (* time.Since(pushStartTime) *)
}.

(** The value sent with a metric: a count, or a duration whose
    [Seconds()] the program reports. *)
Inductive MetricValue : Type :=
| Count (n : Z)
| Seconds (d : Duration).

(** Credentials of a pull or push: [Some (user, pass)] or none. *)
Definition Creds := option (string * string).

(** The calls the program makes to the outside, in the order made. *)
Inductive Event : Type :=
| EvSleep (d : Duration)
| EvNewPodmanClient
| EvPull (ref : string) (creds : Creds)
| EvHistory (ref : string)
| EvRemove (ids : list string)
| EvCreate (image name : string)
| EvCommit (id : string)
| EvStart (id : string)
| EvKill (id signal : string)
| EvPush (source destination : string) (creds : Creds)
| EvPutMetricData (namespace metricName unitName : string) (v : MetricValue).

(** ** Program state *)

(** The package-level variables (lines 54-61) the loop touches, the four
    Prometheus collectors (lines 63-93) and the trace of outside calls.  A
    counter is its count; a summary is the list of its observations. *)
Record State : Type := mkState {
  base : string;
  healthy : bool;
  status : bool;
  promSuccessMetric : nat;
  promFailureMetric : nat;
  promPushMetric : list Duration;
  promPullMetric : list Duration;
  trace : list Event
}.

Definition set_base (v : string) (s : State) : State :=
  mkState v (healthy s) (status s) (promSuccessMetric s) (promFailureMetric s)
          (promPushMetric s) (promPullMetric s) (trace s).

Definition set_healthy (v : bool) (s : State) : State :=
  mkState (base s) v (status s) (promSuccessMetric s) (promFailureMetric s)
          (promPushMetric s) (promPullMetric s) (trace s).

Definition set_status (v : bool) (s : State) : State :=
  mkState (base s) (healthy s) v (promSuccessMetric s) (promFailureMetric s)
          (promPushMetric s) (promPullMetric s) (trace s).

Definition inc_success (s : State) : State :=
  mkState (base s) (healthy s) (status s) (S (promSuccessMetric s))
          (promFailureMetric s) (promPushMetric s) (promPullMetric s) (trace s).

Definition inc_failure (s : State) : State :=
  mkState (base s) (healthy s) (status s) (promSuccessMetric s)
          (S (promFailureMetric s)) (promPushMetric s) (promPullMetric s)
          (trace s).

Definition observe_push (d : Duration) (s : State) : State :=
  mkState (base s) (healthy s) (status s) (promSuccessMetric s)
          (promFailureMetric s) (promPushMetric s ++ [d]) (promPullMetric s)
          (trace s).

Definition observe_pull (d : Duration) (s : State) : State :=
  mkState (base s) (healthy s) (status s) (promSuccessMetric s)
          (promFailureMetric s) (promPushMetric s) (promPullMetric s ++ [d])
          (trace s).

Definition record (ev : Event) (s : State) : State :=
  mkState (base s) (healthy s) (status s) (promSuccessMetric s)
          (promFailureMetric s) (promPushMetric s) (promPullMetric s)
          (trace s ++ [ev]).

(** ** A monad for the program's effects

    A computation reads and writes the state and ends in one of three
    ways: it returns, it ends the process through [os.Exit], or it raises a
    run-time panic (which, in a goroutine without [recover], also ends the
    process). *)

Inductive Res (A : Type) : Type :=
| Ok (a : A) (s : State)
| Exit (code : Z) (s : State)
| Panic (msg : string) (s : State).

Arguments Ok {A} a s.
Arguments Exit {A} code s.
Arguments Panic {A} msg s.

Definition M (A : Type) : Type := State -> Res A.

Definition ret {A : Type} (a : A) : M A := fun s => Ok a s.

Definition bind {A B : Type} (m : M A) (k : A -> M B) : M B :=
  fun s =>
    match m s with
    | Ok a s' => k a s'
    | Exit code s' => Exit code s'
    | Panic msg s' => Panic msg s'
    end.

Notation "x <- m ;; k" := (bind m (fun x => k))
  (at level 61, m at next level, right associativity).
Notation "m ;;; k" := (bind m (fun _ => k))
  (at level 61, right associativity).

Definition get {A : Type} (f : State -> A) : M A := fun s => Ok (f s) s.
Definition modify (f : State -> State) : M unit := fun s => Ok tt (f s).
Definition call (ev : Event) : M unit := modify (record ev).
Definition os_Exit {A : Type} (code : Z) : M A := fun s => Exit code s.
Definition panic {A : Type} (msg : string) : M A := fun s => Panic msg s.

(** The indexed assignment [a[i] = v] on a slice: in range it stores, out
    of range the runtime panics. *)
Fixpoint store (a : list string) (i : nat) (v : string) : option (list string) :=
  match a, i with
  | [], _ => None
  | _ :: rest, O => Some (v :: rest)
  | x :: rest, S j => option_map (cons x) (store rest j v)
  end.

Definition index_assign (a : list string) (i : nat) (v : string) : M (list string) :=
  match store a i v with
  | Some a' => ret a'
  | None => panic "runtime error: index out of range"
  end.

(** ** The HTTP handlers (lines 105-119)

    A handler reads the package-level flags and writes to its response
    writer; it writes no package-level variable.  The flag is read twice,
    for the status line and for the body; both reads are taken in the same
    state. *)

Definition healthHandler (s : State) (w : ResponseWriter) : ResponseWriter :=
  let w := if negb (healthy s) then WriteHeader 503 w else w in
  Write (fmt_t (healthy s)) w.

Definition statusHandler (s : State) (w : ResponseWriter) : ResponseWriter :=
  let w := if negb (status s) then WriteHeader 400 w else w in
  Write (fmt_t (status s)) w.

(** ** The probe steps and the loop *)

(** How one pass through the body of the [for] loop leaves it: on to the
    next iteration ([continue], or the end of the body), or out of
    [mainLoop] through [return]. *)
Inductive Ctl : Type :=
| Continue
| Return.

(** The variables of [runMonitor] and [mainLoop] that the loop body reads
    and writes.  [cloudwatchService] is [true] for a non-nil service. *)
Record Locals : Type := mkLocals {
  firstLoop : bool;
  duration : Duration;
  userDuration : Duration;
  cloudwatchService : bool
}.

Definition with_firstLoop (v : bool) (l : Locals) : Locals :=
  mkLocals v (duration l) (userDuration l) (cloudwatchService l).

Definition with_duration (v : Duration) (l : Locals) : Locals :=
  mkLocals (firstLoop l) v (userDuration l) (cloudwatchService l).

(** The process: its state, and what the goroutine of [mainLoop] is doing.
    [Exited] and [Panicked] end the whole process; in [Halted] the
    goroutine has returned while the HTTP server goes on. *)
Inductive Mode : Type :=
| Looping (l : Locals)
| Halted
| Exited (code : Z)
| Panicked (msg : string).

Record Process : Type := mkProcess {
  globals : State;
  mode : Mode
}.

Definition alive (p : Process) : bool :=
  match mode p with
  | Looping _ | Halted => true
  | Exited _ | Panicked _ => false
  end.

(** The answer of a running process to a request routed to handler [h]. *)
Definition serve (h : State -> ResponseWriter -> ResponseWriter) (p : Process)
  : option (Z * string) :=
  if alive p then Some (response (h (globals p) newResponseWriter)) else None.

Section Monitor.

(** The flags, and [time.ParseDuration] of the Go library ([None] for a
    parse error). *)
Variable flags : Flags.
Variable ParseDuration : string -> option Duration.

Definition pullOptions : Creds :=
  if publicBase flags then None
  else Some (username flags, password flags).

(** Lines 268-287. *)
Definition pullTestImage (e : Engine) : M bool :=
  let fullImagePath := imagePath (repository flags) in
  call (EvPull fullImagePath pullOptions) ;;;
  if failed (pull_test e) then ret false else ret true.

(** Lines 306-324. *)
Definition pullBaseImage (e : Engine) : M bool :=
  let fullImagePath :=
    fullImageRef (registryHost flags) (repository flags) (baseImage flags) in
  call (EvPull fullImagePath pullOptions) ;;;
  if failed (pull_base e) then ret false else ret true.

(** The [for ... range imageHistory] of [deleteTopLayer] (lines 334-348):
    the first entry tagged "latest" is the one acted on, then the loop
    is left; the function returns the global [healthy]. *)
Fixpoint deleteTopLayer_range (e : Engine) (imageHistory : list HistoryResponse)
  : M bool :=
  match imageHistory with
  | [] => get healthy
  | image :: rest =>
      if stringInSlice "latest" (Tags image) then
        let imagesToRemove : list string := [] in
        imagesToRemove <- index_assign imagesToRemove 0 (ID image) ;;
        call (EvRemove imagesToRemove) ;;;
        if failed (remove e) then ret false
        else get healthy
      else deleteTopLayer_range e rest
  end.

(** Lines 326-349. *)
Definition deleteTopLayer (e : Engine) : M bool :=
  call (EvHistory (baseLayer flags)) ;;;
  match history e with
  | inr _ => ret false
  | inl imageHistory => deleteTopLayer_range e imageHistory
  end.

(** Lines 351-387. *)
Definition createTagLayer (e : Engine) : M bool :=
  let container_name := "updatedcontainer" ++ fmt_v_int (now_unix e) in
  call (EvCreate
          (fullImageRef (registryHost flags) (repository flags) (baseImage flags))
          container_name) ;;;
  match create e with
  | inr _ => os_Exit 1
  | inl createdResponse_ID =>
      call (EvCommit createdResponse_ID) ;;;
      if failed (commit e) then ret false
      else
        call (EvStart createdResponse_ID) ;;;
        if failed (start e) then os_Exit 1
        else
          call (EvKill createdResponse_ID "SIGKILL") ;;;
          if failed (kill e) then ret false
          else ret true
  end.

(** Lines 389-402. *)
Definition pushTestImage (e : Engine) : M bool :=
  let source := fullImageRef (registryHost flags) (repository flags) "" in
  call (EvPush source source (Some (username flags, password flags))) ;;;
  if failed (push e) then ret false else ret true.

(** Lines 491-513; an error of [PutMetricData] is only logged. *)
Definition putCloudWatchMetric (metricName : string) (watchService : bool)
           (unitName : string) (metricValue : MetricValue) : M unit :=
  if negb watchService then ret tt
  else call (EvPutMetricData (cloudwatchNamespace flags) metricName unitName
                             metricValue).

(** Lines 515-523.  [GetMetricWithLabelValues] is called without values
    on a vector declared without labels, where it has no error to
    return. *)
Definition reportSuccess (watchService : bool) : M unit :=
  modify (set_status true) ;;;
  modify inc_success ;;;
  putCloudWatchMetric (cloudwatchSuccessMetric flags) watchService "Count"
                      (Count 1).

(** Lines 525-533. *)
Definition reportFailure (watchService : bool) : M unit :=
  modify (set_status false) ;;;
  modify inc_failure ;;;
  putCloudWatchMetric (cloudwatchFailureMetric flags) watchService "Count"
                      (Count 1).

(** Lines 535-538. *)
Definition reportPushTime (watchService : bool) (d : Duration) : M unit :=
  modify (observe_push d) ;;;
  putCloudWatchMetric (cloudwatchPushTimeMetric flags) watchService "Seconds"
                      (Seconds d).

(** Lines 540-543. *)
Definition reportPullTime (watchService : bool) (d : Duration) : M unit :=
  modify (observe_pull d) ;;;
  putCloudWatchMetric (cloudwatchPullTimeMetric flags) watchService "Seconds"
                      (Seconds d).

(** Lines 586-596: the base selector. *)
Definition resolveBase (e : Engine) : M Ctl :=
  if negb (String.eqb (baseImage flags) "") then
    ok <- pullBaseImage e ;;
    if negb ok then
      modify (set_healthy false) ;;;
      ret Return
    else
      modify (set_base (baseImage flags)) ;;;
      ret Continue
  else
    modify (set_base (baseLayer flags)) ;;;
    ret Continue.

(** One pass through the body of the [for] loop (lines 563-626). *)
Definition mainLoop_body (e : Engine) (l : Locals) : M (Ctl * Locals) :=
  (if negb (firstLoop l) then call (EvSleep (duration l)) else ret tt) ;;;
  let l := with_firstLoop false l in
  modify (set_status true) ;;;
  call EvNewPodmanClient ;;;
  ok <- pullTestImage e ;;
  if negb ok then
    let l := with_duration (30 * Second) l in
    reportFailure (cloudwatchService l) ;;;
    ret (Continue, l)
  else
    reportPullTime (cloudwatchService l) (pull_elapsed e) ;;;
    c <- resolveBase e ;;
    match c with
    | Return => ret (Return, l)
    | Continue =>
        ok <- deleteTopLayer e ;;
        if negb ok then
          modify (set_healthy false) ;;;
          ret (Return, l)
        else
          ok <- createTagLayer e ;;
          if negb ok then
            modify (set_healthy false) ;;;
            ret (Return, l)
          else
            ok <- pushTestImage e ;;
            if negb ok then
              let l := with_duration (30 * Second) l in
              reportFailure (cloudwatchService l) ;;;
              ret (Continue, l)
            else
              reportPushTime (cloudwatchService l) (push_elapsed e) ;;;
              let l := with_duration (userDuration l) l in
              reportSuccess (cloudwatchService l) ;;;
              ret (Continue, l)
    end.

(** [runMonitor] (lines 545-561, 629) up to the first iteration: the
    variables are initialised, the goroutine starts, the interval is
    parsed ([log.Fatalf] exits with code 1) and the CloudWatch service is
    configured. *)
Definition runMonitor (s : State) : Process :=
  let firstLoop := true in
  let s := set_healthy true s in
  let duration := 120 * Second in
  match ParseDuration (testInterval flags) with
  | None => mkProcess s (Exited 1)
  | Some userDuration =>
      let cloudwatchService :=
        negb (String.eqb (awsAccessKey flags) "")
        && negb (String.eqb (awsSecretKey flags) "")
        && negb (String.eqb (cloudwatchNamespace flags) "") in
      mkProcess s (Looping
        (mkLocals firstLoop duration userDuration cloudwatchService))
  end.

(** The goroutine takes one more turn of the loop, the outside answering
    as [e] says; a goroutine that has returned, or a process that has
    ended, does nothing more. *)
Definition step (e : Engine) (p : Process) : Process :=
  match mode p with
  | Looping l =>
      match mainLoop_body e l (globals p) with
      | Ok (Continue, l') s => mkProcess s (Looping l')
      | Ok (Return, _) s => mkProcess s Halted
      | Exit code s => mkProcess s (Exited code)
      | Panic msg s => mkProcess s (Panicked msg)
      end
  | _ => p
  end.

Fixpoint run (es : list Engine) (p : Process) : Process :=
  match es with
  | [] => p
  | e :: rest => run rest (step e p)
  end.

End Monitor.

(** The package-level variables before [main] runs: Go's zero values. *)
Definition zero : State :=
  mkState "" false false 0 0 [] [] [].

(** ** Situations of one cycle, read off the answers of the outside *)

(** No entry of the history carries the tag "latest". *)
Definition no_latest (imageHistory : list HistoryResponse) : bool :=
  forallb (fun image => negb (stringInSlice "latest" (Tags image))) imageHistory.

(** The base image, when one is configured, is pulled without error. *)
Definition base_ok (flags : Flags) (e : Engine) : Prop :=
  baseImage flags = "" \/ pull_base e = None.

(** The history call succeeds and finds nothing to delete. *)
Definition delete_ok (e : Engine) : Prop :=
  exists imageHistory, history e = inl imageHistory /\ no_latest imageHistory = true.

(** Creation, commit, start and kill of the tagging container all succeed. *)
Definition tag_ok (e : Engine) : Prop :=
  (exists id, create e = inl id) /\ commit e = None /\ start e = None /\ kill e = None.

(** A structural failure: the cycle gets past the test pull and then the
    base pull, the layer deletion or the tag layer (commit or kill) reports
    failure. *)
Inductive StructuralFailure (flags : Flags) (e : Engine) : Prop :=
| SF_PullBase :
    pull_test e = None ->
    baseImage flags <> "" -> pull_base e <> None ->
    StructuralFailure flags e
| SF_DeleteLayer (err : string) :
    pull_test e = None -> base_ok flags e ->
    history e = inr err ->
    StructuralFailure flags e
| SF_Commit (id : string) :
    pull_test e = None -> base_ok flags e -> delete_ok e ->
    create e = inl id -> commit e <> None ->
    StructuralFailure flags e
| SF_Kill (id : string) :
    pull_test e = None -> base_ok flags e -> delete_ok e ->
    create e = inl id -> commit e = None -> start e = None -> kill e <> None ->
    StructuralFailure flags e.

(** A transient failure: the test pull fails, or every step up to the push
    succeeds and the push fails. *)
Inductive TransientFailure (flags : Flags) (e : Engine) : Prop :=
| TF_PullTest :
    pull_test e <> None ->
    TransientFailure flags e
| TF_PushTest :
    pull_test e = None -> base_ok flags e -> delete_ok e -> tag_ok e ->
    push e <> None ->
    TransientFailure flags e.

(** A successful cycle: every step succeeds. *)
Definition Success (flags : Flags) (e : Engine) : Prop :=
  pull_test e = None /\ base_ok flags e /\ delete_ok e /\ tag_ok e /\
  push e = None.

(** The sleep that opens every iteration but the first. *)
Definition sleep_calls (l : Locals) : list Event :=
  if firstLoop l then [] else [EvSleep (duration l)].

(** The calls a cycle makes up to and including the test pull: a new client
    and the pull itself. *)
Definition pullTest_calls (flags : Flags) : list Event :=
  [EvNewPodmanClient; EvPull (imagePath (repository flags)) (pullOptions flags)].

(** The call to CloudWatch for one metric, when the service is configured. *)
Definition cloudwatch_calls (flags : Flags) (watchService : bool)
           (metricName unitName : string) (v : MetricValue) : list Event :=
  if watchService then
    [EvPutMetricData (cloudwatchNamespace flags) metricName unitName v]
  else [].

(** The processes an execution can be in when the goroutine is between two
    iterations: those reached from [runMonitor] by some number of turns of
    the loop, whatever the outside answered. *)
Definition Reachable (flags : Flags) (ParseDuration : string -> option Duration)
           (p : Process) : Prop :=
  exists (s0 : State) (es : list Engine),
    p = run flags es (runMonitor flags ParseDuration s0).

(** What holds of a process whose loop is still turning. *)
Definition LoopInv (flags : Flags) (ParseDuration : string -> option Duration)
           (p : Process) : Prop :=
  forall l, mode p = Looping l ->
    healthy (globals p) = true /\
    ParseDuration (testInterval flags) = Some (userDuration l).

(** The durations slept, as a trace shows them. *)
Fixpoint sleeps (t : list Event) : list Duration :=
  match t with
  | [] => []
  | EvSleep d :: rest => d :: sleeps rest
  | _ :: rest => sleeps rest
  end.

(** A sleep of the retry interval or of the configured one. *)
Definition retry_or_configured (flags : Flags)
           (ParseDuration : string -> option Duration) (d : Duration) : Prop :=
  d = 30 * Second \/ ParseDuration (testInterval flags) = Some d.

(** What holds of the sleeps of a process: those done, and the one the
    loop would do next. *)
Definition SleepInv (flags : Flags) (ParseDuration : string -> option Duration)
           (p : Process) : Prop :=
  (forall d, In d (sleeps (trace (globals p))) ->
             retry_or_configured flags ParseDuration d) /\
  (forall l, mode p = Looping l ->
     ParseDuration (testInterval flags) = Some (userDuration l) /\
     (firstLoop l = false ->
      retry_or_configured flags ParseDuration (duration l))).

(** ** Concrete inputs for the examples *)

Definition exampleFlags : Flags :=
  mkFlags "user" "secret" "quay.io" "app" "" false "layer0" "5m"
          "" "" "" "MonitorSuccess" "MonitorFailure" "MonitorPullTime"
          "MonitorPushTime".

Definition exampleFlagsBase : Flags :=
  mkFlags "user" "secret" "quay.io" "app" "alpine" true "" "2m"
          "key" "secret" "ns" "MonitorSuccess" "MonitorFailure"
          "MonitorPullTime" "MonitorPushTime".

(** A stand-in for [time.ParseDuration] on the literals of the examples. *)
Definition exampleParseDuration (s : string) : option Duration :=
  if String.eqb s "2m" then Some (2 * Minute)
  else if String.eqb s "5m" then Some (5 * Minute)
  else if String.eqb s "30s" then Some (30 * Second)
  else None.

(** Every call succeeds and the history has no entry tagged "latest". *)
Definition engineOk : Engine :=
  mkEngine None (2 * Second) None
           (inl [mkHistory "layer0" []; mkHistory "layer1" ["v1"]])
           None 1700000000 (inl "c0ffee") None None None None (3 * Second).

Definition withPullTest (err : error) (e : Engine) : Engine :=
  mkEngine err (pull_elapsed e) (pull_base e) (history e) (remove e)
           (now_unix e) (create e) (commit e) (start e) (kill e) (push e)
           (push_elapsed e).

Definition withPullBase (err : error) (e : Engine) : Engine :=
  mkEngine (pull_test e) (pull_elapsed e) err (history e) (remove e)
           (now_unix e) (create e) (commit e) (start e) (kill e) (push e)
           (push_elapsed e).

Definition withHistory (h : list HistoryResponse + string) (e : Engine) : Engine :=
  mkEngine (pull_test e) (pull_elapsed e) (pull_base e) h (remove e)
           (now_unix e) (create e) (commit e) (start e) (kill e) (push e)
           (push_elapsed e).

Definition withCreate (c : string + string) (e : Engine) : Engine :=
  mkEngine (pull_test e) (pull_elapsed e) (pull_base e) (history e) (remove e)
           (now_unix e) c (commit e) (start e) (kill e) (push e)
           (push_elapsed e).

Definition withCommit (err : error) (e : Engine) : Engine :=
  mkEngine (pull_test e) (pull_elapsed e) (pull_base e) (history e) (remove e)
           (now_unix e) (create e) err (start e) (kill e) (push e)
           (push_elapsed e).

Definition withStart (err : error) (e : Engine) : Engine :=
  mkEngine (pull_test e) (pull_elapsed e) (pull_base e) (history e) (remove e)
           (now_unix e) (create e) (commit e) err (kill e) (push e)
           (push_elapsed e).

Definition withKill (err : error) (e : Engine) : Engine :=
  mkEngine (pull_test e) (pull_elapsed e) (pull_base e) (history e) (remove e)
           (now_unix e) (create e) (commit e) (start e) err (push e)
           (push_elapsed e).

Definition withPush (err : error) (e : Engine) : Engine :=
  mkEngine (pull_test e) (pull_elapsed e) (pull_base e) (history e) (remove e)
           (now_unix e) (create e) (commit e) (start e) (kill e) err
           (push_elapsed e).

(** The history of an image whose top entry is tagged "latest". *)
Definition historyLatest : list HistoryResponse :=
  [mkHistory "sha256:1f2e" ["latest"]; mkHistory "sha256:77aa" []].

(** ** Further situations of one cycle *)

(** A fatal failure: the cycle gets as far as the tag layer and the
    creation of the container fails, or its start fails after a successful
    commit. *)
Inductive FatalFailure (flags : Flags) (e : Engine) : Prop :=
| FF_Create (err : string) :
    pull_test e = None -> base_ok flags e -> delete_ok e ->
    create e = inr err ->
    FatalFailure flags e
| FF_Start (id : string) :
    pull_test e = None -> base_ok flags e -> delete_ok e ->
    create e = inl id -> commit e = None -> start e <> None ->
    FatalFailure flags e.

(** The cycle gets as far as the layer deletion and the history holds an
    entry tagged "latest". *)
Definition LatestTagged (flags : Flags) (e : Engine) : Prop :=
  pull_test e = None /\ base_ok flags e /\
  exists imageHistory,
    history e = inl imageHistory /\ no_latest imageHistory = false.

Definition is_remove (ev : Event) : bool :=
  match ev with
  | EvRemove _ => true
  | _ => false
  end.

Definition is_put_metric (ev : Event) : bool :=
  match ev with
  | EvPutMetricData _ _ _ _ => true
  | _ => false
  end.

(** The three settings without which no CloudWatch service is built
    (line 556). *)
Definition cloudwatch_configured (flags : Flags) : bool :=
  negb (String.eqb (awsAccessKey flags) "")
  && negb (String.eqb (awsSecretKey flags) "")
  && negb (String.eqb (cloudwatchNamespace flags) "").

(** ** Start-up: [main] (lines 415-489) *)

(** What the outside answers during start-up.  [flags] given to [main_startup]
    are the values once the command line and the environment are read. *)
Record Startup : Type := mkStartup {
  flag_parse : error;                                  (* flag.CommandLine.Parse *)
  flags_from_env : error;                              (* flagutil.SetFlagsFromEnv *)
  parse_level : error;                                 (* log.ParseLevel *)
  repository_history : list HistoryResponse + string;  (* images.History, line 457 *)
  register : string -> error                           (* prometheus.Register, by name *)
}.

Definition with_baseLayer (v : string) (f : Flags) : Flags :=
  mkFlags (username f) (password f) (registryHost f) (repository f)
          (baseImage f) (publicBase f) v (testInterval f)
          (awsAccessKey f) (awsSecretKey f) (cloudwatchNamespace f)
          (cloudwatchSuccessMetric f) (cloudwatchFailureMetric f)
          (cloudwatchPullTimeMetric f) (cloudwatchPushTimeMetric f).

(** The indexed read [a[i]] of a slice. *)
Definition index_read (a : list HistoryResponse) (i : nat) : M HistoryResponse :=
  match nth_error a i with
  | Some x => ret x
  | None => panic "runtime error: index out of range"
  end.

(** The names of the collectors of [prometheusMetrics] (line 95), in
    order. *)
Definition prometheusMetrics : list string :=
  ["monitor_success"; "monitor_failure"; "monitor_pull"; "monitor_push"].

(** Lines 469-474; [log.Fatalf] exits with code 1. *)
Fixpoint register_range (st : Startup) (metrics : list string) : M unit :=
  match metrics with
  | [] => ret tt
  | metric :: rest =>
      if failed (register st metric) then os_Exit 1
      else register_range st rest
  end.

(** Lines 455-466: the base selector; [log.Fatalf] and [log.Fatalln] exit
    with code 1. *)
Definition resolveBaseLayer (st : Startup) (flags : Flags) : M Flags :=
  if String.eqb (baseImage flags) "" && String.eqb (baseLayer flags) "" then
    call (EvHistory (repository flags)) ;;;
    match repository_history st with
    | inr _ => os_Exit 1
    | inl grabID =>
        first <- index_read grabID 0 ;;
        ret (with_baseLayer (ID first) flags)
    end
  else if negb (String.eqb (baseImage flags) "")
          && negb (String.eqb (baseLayer flags) "") then
    os_Exit 1
  else ret flags.

(** [main] up to the call of [runMonitor]: it returns the flags the loop
    will read. *)
Definition main_startup (st : Startup) (flags : Flags) : M Flags :=
  if failed (flag_parse st) then os_Exit 1
  else if failed (flags_from_env st) then os_Exit 1
  else if failed (parse_level st) then os_Exit 1
  else if String.eqb (username flags) "" then os_Exit 1
  else if String.eqb (password flags) "" then os_Exit 1
  else if String.eqb (registryHost flags) "" then os_Exit 1
  else if String.eqb (repository flags) "" then os_Exit 1
  else
    flags <- resolveBaseLayer st flags ;;
    register_range st prometheusMetrics ;;;
    ret flags.

(** [main] up to the call of [http.ListenAndServe]: the process that then
    serves requests while the loop turns. *)
Definition main (ParseDuration : string -> option Duration) (st : Startup)
           (flags : Flags) (s : State) : Process :=
  match main_startup st flags s with
  | Ok flags' s' => runMonitor flags' ParseDuration s'
  | Exit code s' => mkProcess s' (Exited code)
  | Panic msg s' => mkProcess s' (Panicked msg)
  end.

(** ** The Docker clean-up helpers (lines 171-266) *)

(** The fields of [docker.APIContainers] the program reads. *)
Record APIContainers : Type := mkContainer {
  Container_ID : string;
  Names : list string
}.

(** The calls made to the Docker client. *)
Inductive DockerCall : Type :=
| ListContainers (all : bool)
| RemoveContainer (id : string) (removeVolumes force : bool)
| ListImages (all : bool)
| RemoveImage (id : string).

(** The Docker client: each answer may depend on the calls made before. *)
Record DockerClient : Type := mkDocker {
  ListContainers_answer : list DockerCall -> list APIContainers + string;
  RemoveContainer_answer : list DockerCall -> string -> error;
  ListImages_answer : list DockerCall -> list string + string;  (* the IDs *)
  RemoveImage_answer : list DockerCall -> string -> error
}.

(** The [for ... range containers] of [clearAllContainers] (lines
    183-199), with the calls made so far. *)
Fixpoint clearAllContainers_range (d : DockerClient)
         (containers : list APIContainers) (calls : list DockerCall)
  : bool * list DockerCall :=
  match containers with
  | [] => (true, calls)
  | container :: rest =>
      if stringInSlice "monitor" (Names container) then
        clearAllContainers_range d rest calls
      else
        let err := RemoveContainer_answer d calls (Container_ID container) in
        let calls :=
          (calls ++ [RemoveContainer (Container_ID container) true true])%list in
        if failed err then (false, calls)
        else clearAllContainers_range d rest calls
  end.

(** Lines 171-202: the result and the calls made. *)
Definition clearAllContainers (d : DockerClient) : bool * list DockerCall :=
  let calls := [ListContainers true] in
  match ListContainers_answer d [] with
  | inr _ => (false, calls)
  | inl containers => clearAllContainers_range d containers calls
  end.

(** The presence test [_, toSkip := skipImages[id]] on the map, kept as the
    list of its entries. *)
Definition toSkip (skipImages : list (string * bool)) (id : string) : bool :=
  existsb (fun kv => String.eqb (fst kv) id) skipImages.

(** Lines 225-232. *)
Fixpoint imagesFound_range (skipImages : list (string * bool))
         (images : list string) (imagesFound : bool) : bool :=
  match images with
  | [] => imagesFound
  | image :: rest =>
      if toSkip skipImages image then
        imagesFound_range skipImages rest imagesFound
      else imagesFound_range skipImages rest true
  end.

(** The slice expression [a[:n]]; it is in range at least when [n] does
    not exceed the length. *)
Definition slice_to (a : list string) (n : nat) : option (list string) :=
  if (n <=? List.length a)%nat then Some (firstn n a) else None.

(** How the removal loop of one round ends: the function returns, or the
    loop is done with the flag [removedImages] and the map as they are. *)
Inductive Removal : Type :=
| RemovalReturn (b : bool) (calls : list DockerCall)
| RemovalDone (removedImages : bool) (skipImages : list (string * bool))
              (calls : list DockerCall).

Section Cleanup.

(** [strings.ToLower] of the Go library and the value of the environment
    variable UNDER_DOCKER. *)
Variable ToLower : string -> string.
Variable UNDER_DOCKER : string.

(** Lines 240-258. *)
Fixpoint removeImages_range (d : DockerClient) (images : list string)
         (removedImages : bool) (skipImages : list (string * bool))
         (calls : list DockerCall) : Removal :=
  match images with
  | [] => RemovalDone removedImages skipImages calls
  | image :: rest =>
      if toSkip skipImages image then
        removeImages_range d rest removedImages skipImages calls
      else
        let err := RemoveImage_answer d calls image in
        let calls := (calls ++ [RemoveImage image])%list in
        if failed err then
          if negb (String.eqb (ToLower UNDER_DOCKER) "true") then
            RemovalReturn false calls
          else
            removeImages_range d rest removedImages
                               ((image, true) :: skipImages) calls
        else removeImages_range d rest true skipImages calls
  end.

(** How [clearAllImages] ends: it returns, or the slice expression
    panics. *)
Inductive Cleared : Type :=
| Returned (b : bool)
| SliceOutOfRange.

(** The [for] loop of [clearAllImages] (lines 211-263), for at most [fuel]
    rounds; [None] when the loop is still turning after them. *)
Fixpoint clearAllImages_loop (fuel : nat) (d : DockerClient)
         (skipImages : list (string * bool)) (calls : list DockerCall)
  : option Cleared * list DockerCall :=
  match fuel with
  | O => (None, calls)
  | S fuel =>
      let answer := ListImages_answer d calls in
      let calls := (calls ++ [ListImages true])%list in
      match answer with
      | inr _ => (Some (Returned false), calls)
      | inl images =>
          let imagesFound := imagesFound_range skipImages images false in
          if negb imagesFound then (Some (Returned true), calls)
          else
            match slice_to images 1 with
            | None => (Some SliceOutOfRange, calls)
            | Some first =>
                match removeImages_range d first false skipImages calls with
                | RemovalReturn b calls => (Some (Returned b), calls)
                | RemovalDone removedImages skipImages calls =>
                    if negb removedImages then (Some (Returned true), calls)
                    else clearAllImages_loop fuel d skipImages calls
                end
            end
      end
  end.

(** Lines 204-266. *)
Definition clearAllImages (fuel : nat) (d : DockerClient)
  : option Cleared * list DockerCall :=
  let skipImages : list (string * bool) := [] in
  clearAllImages_loop fuel d skipImages [].

End Cleanup.

(** ** Vocabulary of the further properties *)

Definition is_halted (m : Mode) : bool :=
  match m with
  | Halted => true
  | _ => false
  end.

(** The test of line 184, negated: the container is not spared. *)
Definition not_monitor (container : APIContainers) : bool :=
  negb (stringInSlice "monitor" (Names container)).

(** The removal call of lines 189-195 for one container. *)
Definition removal_of (container : APIContainers) : DockerCall :=
  RemoveContainer (Container_ID container) true true.

(** ** Further concrete inputs *)




(** Three containers, one of them named "monitor"; every removal succeeds,
    and the one image listed can never be removed. *)
Definition exampleDocker : DockerClient :=
  mkDocker
    (fun _ => inl [mkContainer "c1" ["web"]; mkContainer "c2" ["monitor"];
                   mkContainer "c3" ["db"]])
    (fun _ _ => None)
    (fun _ => inl ["img1"; "img2"])
    (fun _ _ => Some "image is in use").

(** The removal of container "c1" fails. *)
Definition exampleDockerBusy : DockerClient :=
  mkDocker
    (fun _ => inl [mkContainer "c1" ["web"]; mkContainer "c2" ["monitor"];
                   mkContainer "c3" ["db"]])
    (fun _ id => if String.eqb id "c1" then Some "conflict" else None)
    (fun _ => inl ["img1"; "img2"])
    (fun _ _ => None).

(** ** Theorems on the image references *)

(** C6: [imagePath r] is [r] followed by ":latest"; [fullImageRef h r ""] is
    "h/r:latest"; for a non-empty [b], [fullImageRef h r b] is
    "h/r/b:latest".  Both are total functions of their arguments alone. *)
Theorem fullImageRef_spec (r h b : string) (Hb : b <> "") :
  imagePath r = r ++ ":latest" /\
  fullImageRef h r "" = h ++ "/" ++ r ++ ":latest" /\
  fullImageRef h r b = h ++ "/" ++ r ++ "/" ++ b ++ ":latest".
Proof.
  split; [reflexivity |]. split; [reflexivity |].
  unfold fullImageRef. destruct (String.eqb_spec b "") as [E | _].
  - contradiction.
  - reflexivity.
Qed.

Lemma fullImageRef_spec_witness :
  "b" <> "" /\
  imagePath "r" = "r:latest" /\
  fullImageRef "h" "r" "" = "h/r:latest" /\
  fullImageRef "h" "r" "b" = "h/r/b:latest".
Proof.
  split.
  - discriminate.
  - apply (fullImageRef_spec "r" "h" "b"). discriminate.
Defined.


(** ** The steps, case by case *)

Lemma deleteTopLayer_range_eq (e : Engine)
      (imageHistory : list HistoryResponse) (s : State) :
  deleteTopLayer_range e imageHistory s =
  if no_latest imageHistory then Ok (healthy s) s
  else Panic "runtime error: index out of range" s.
Proof.
  induction imageHistory as [| image rest IH]; simpl.
  - reflexivity.
  - destruct (stringInSlice "latest" (Tags image)); simpl.
    + reflexivity.
    + exact IH.
Qed.

Lemma deleteTopLayer_eq (flags : Flags) (e : Engine) (s : State) :
  deleteTopLayer flags e s =
  let s' := record (EvHistory (baseLayer flags)) s in
  match history e with
  | inr _ => Ok false s'
  | inl imageHistory =>
      if no_latest imageHistory then Ok (healthy s) s'
      else Panic "runtime error: index out of range" s'
  end.
Proof.
  unfold deleteTopLayer, bind, call, modify. simpl.
  destruct (history e) as [h | err].
  - rewrite deleteTopLayer_range_eq. reflexivity.
  - reflexivity.
Qed.

(** Unfolds one turn of the loop down to the answers of the outside. *)
Ltac unfold_body :=
  unfold mainLoop_body, resolveBase, pullTestImage, pullBaseImage,
    createTagLayer, pushTestImage, reportFailure, reportSuccess,
    reportPullTime, reportPushTime, putCloudWatchMetric,
    bind, call, modify, ret, get, os_Exit;
  cbn beta iota.

(** Splits on the next answer that the computation in the goal waits for. *)
Ltac next_answer :=
  first
    [ rewrite deleteTopLayer_eq; cbn beta iota zeta
    | match goal with
      | |- context [match ?x with _ => _ end] =>
          match x with
          | context [match _ with _ => _ end] => fail 1
          | _ => destruct x eqn:?
          end
      end ].

Lemma step_keeps_unhealthy (flags : Flags) (e : Engine) (p : Process) :
  healthy (globals p) = false ->
  healthy (globals (step flags e p)) = false.
Proof.
  destruct p as [s m]. unfold step. cbn [mode globals]. intros Hs.
  destruct m as [l | | code | msg]; try exact Hs.
  unfold_body.
  repeat (next_answer; cbn [failed negb fst snd]); cbn; try exact Hs; reflexivity.
Qed.

(** Brings the description of a cycle into the shape the computation
    consults: equations on the answers. *)
Ltac failing H :=
  match type of H with
  | ?x <> None => destruct x eqn:?; [clear H | contradiction]
  end.

Ltac situation :=
  repeat match goal with
  | H : base_ok _ _ |- _ => destruct H as [H | H]
  | H : delete_ok _ |- _ => destruct H as (? & ? & ?)
  | H : tag_ok _ |- _ => destruct H as ((? & ?) & ? & ? & ?)
  | H : Success _ _ |- _ => destruct H as (? & ? & ? & ? & ?)
  | H : _ <> None |- _ => failing H
  | H : baseImage _ <> "" |- _ => apply String.eqb_neq in H
  | H : baseImage _ = "" |- _ => apply String.eqb_eq in H
  end;
  repeat match goal with
  | H : _ = _ :> error |- _ => rewrite !H
  | H : _ = _ :> (_ + _)%type |- _ => rewrite !H
  | H : _ = _ :> bool |- _ => rewrite !H
  end.

Ltac simpl_state :=
  cbn [failed negb fst snd mode globals
       base healthy status promSuccessMetric promFailureMetric promPushMetric
       promPullMetric trace
       set_base set_healthy set_status inc_success inc_failure observe_push
       observe_pull record
       firstLoop duration userDuration cloudwatchService
       with_firstLoop with_duration].

Ltac run_cycle :=
  unfold step; cbn [mode globals]; unfold_body;
  repeat (simpl_state; situation; simpl_state; situation; try next_answer).

(** ** Invariants of the loop *)

Lemma step_LoopInv (flags : Flags) (PD : string -> option Duration)
      (e : Engine) (p : Process) :
  LoopInv flags PD p -> LoopInv flags PD (step flags e p).
Proof.
  destruct p as [s m]. unfold LoopInv. cbn [mode globals].
  destruct m as [l | | code | msg];
    try (unfold step; cbn [mode globals]; intros H l' Hl'; exact (H l' Hl')).
  intros H. destruct (H l eq_refl) as [Hh Hu]. clear H.
  unfold step; cbn [mode globals]; unfold_body.
  repeat (next_answer; cbn [failed negb fst snd]);
    cbn; intros l' Hl'; try discriminate;
    injection Hl' as <-; cbn; split; try assumption;
    try (rewrite Hh in *; discriminate).
Qed.

Lemma run_LoopInv (flags : Flags) (PD : string -> option Duration)
      (es : list Engine) :
  forall p, LoopInv flags PD p -> LoopInv flags PD (run flags es p).
Proof.
  induction es as [| e es IH]; intros p Hp; simpl.
  - exact Hp.
  - apply IH, step_LoopInv, Hp.
Qed.

Lemma runMonitor_LoopInv (flags : Flags) (PD : string -> option Duration)
      (s0 : State) :
  LoopInv flags PD (runMonitor flags PD s0).
Proof.
  unfold LoopInv, runMonitor. intros l.
  destruct (PD (testInterval flags)) as [d |] eqn:Hd; cbn [mode globals].
  - intros Hl. injection Hl as <-. split; reflexivity.
  - discriminate.
Qed.

Lemma Reachable_LoopInv (flags : Flags) (PD : string -> option Duration)
      (p : Process) :
  Reachable flags PD p -> LoopInv flags PD p.
Proof.
  intros (s0 & es & ->). apply run_LoopInv, runMonitor_LoopInv.
Qed.

Lemma run_not_looping (flags : Flags) (es : list Engine) (p : Process) :
  (forall l, mode p <> Looping l) -> run flags es p = p.
Proof.
  induction es as [| e es IH]; intros Hm; simpl.
  - reflexivity.
  - assert (Hs : step flags e p = p).
    { unfold step. destruct (mode p) as [l | | |] eqn:E; try reflexivity.
      exfalso. exact (Hm l eq_refl). }
    rewrite Hs. apply IH, Hm.
Qed.

Lemma run_keeps_unhealthy (flags : Flags) (es : list Engine) :
  forall p, healthy (globals p) = false ->
            healthy (globals (run flags es p)) = false.
Proof.
  induction es as [| e es IH]; intros p Hp; simpl.
  - exact Hp.
  - apply IH, step_keeps_unhealthy, Hp.
Qed.

(** A structural failure, met by a turning loop, is where the goroutine
    returns: the flag [healthy] is cleared and [status] is as the start of
    the cycle set it. *)
Lemma step_structural (flags : Flags) (e : Engine) (s : State) (l : Locals) :
  healthy s = true ->
  StructuralFailure flags e ->
  let p' := step flags e (mkProcess s (Looping l)) in
  mode p' = Halted /\ healthy (globals p') = false /\
  status (globals p') = true.
Proof.
  intros Hh Hf.
  destruct Hf; run_cycle; cbn; rewrite ?Hh; cbn; repeat split.
Qed.

(** Normalises a trace built by successive [record]s to a single append. *)
Ltac flat_trace :=
  cbn [app]; repeat (rewrite <- app_assoc; cbn [app]).

(** Proves that an explicit list of calls ends with an explicit suffix. *)
Ltac cut_before_suffix :=
  match goal with
  | |- exists evs, (?t ++ ?l)%list = (?t ++ evs ++ ?suffix)%list =>
      let n := eval lazy in (List.length l - List.length suffix)%nat in
      exists (List.firstn n l); reflexivity
  end.

(** Past the first iteration, a turn of the loop opens with the sleep. *)
Lemma step_sleeps_first (flags : Flags) (e : Engine) (s : State) (l : Locals) :
  firstLoop l = false ->
  exists evs,
    trace (globals (step flags e (mkProcess s (Looping l)))) =
    (trace s ++ EvSleep (duration l) :: evs)%list.
Proof.
  intros Hf. unfold step; cbn [mode globals]; unfold_body.
  rewrite Hf. simpl_state.
  repeat (next_answer; simpl_state); flat_trace; eexists; reflexivity.
Qed.

(** The end of a cycle that fails transiently, on a turning loop. *)
Lemma step_transient (flags : Flags) (e : Engine) (s : State) (l : Locals) :
  healthy s = true ->
  TransientFailure flags e ->
  let p' := step flags e (mkProcess s (Looping l)) in
  mode p' = Looping (with_duration (30 * Second) (with_firstLoop false l)) /\
  status (globals p') = false /\
  healthy (globals p') = healthy s /\
  promFailureMetric (globals p') = S (promFailureMetric s) /\
  promSuccessMetric (globals p') = promSuccessMetric s /\
  promPushMetric (globals p') = promPushMetric s /\
  (pull_test e <> None ->
   trace (globals p') =
   (trace s ++ sleep_calls l ++ pullTest_calls flags ++
    cloudwatch_calls flags (cloudwatchService l)
      (cloudwatchFailureMetric flags) "Count" (Count 1))%list) /\
  (pull_test e = None ->
   exists evs,
     trace (globals p') =
     (trace s ++ evs ++
      EvPush (fullImageRef (registryHost flags) (repository flags) "")
             (fullImageRef (registryHost flags) (repository flags) "")
             (Some (username flags, password flags))
      :: cloudwatch_calls flags (cloudwatchService l)
           (cloudwatchFailureMetric flags) "Count" (Count 1))%list).
Proof.
  intros Hh Hf. destruct l as [fl d ud cw].
  unfold sleep_calls, pullTest_calls, cloudwatch_calls.
  destruct fl, cw; destruct Hf; run_cycle; simpl_state; rewrite ?Hh;
    repeat split; try discriminate; try (intros; flat_trace; reflexivity);
    try (intros; flat_trace; cut_before_suffix);
    try (intros Hn; exfalso; apply Hn; reflexivity).
Qed.

(** The end of a successful cycle, on a turning loop. *)
Lemma step_success (flags : Flags) (e : Engine) (s : State) (l : Locals) :
  healthy s = true ->
  Success flags e ->
  let p' := step flags e (mkProcess s (Looping l)) in
  mode p' = Looping (with_duration (userDuration l) (with_firstLoop false l)) /\
  status (globals p') = true /\
  healthy (globals p') = true /\
  promSuccessMetric (globals p') = S (promSuccessMetric s) /\
  promFailureMetric (globals p') = promFailureMetric s /\
  promPushMetric (globals p') = (promPushMetric s ++ [push_elapsed e])%list /\
  exists evs,
    trace (globals p') =
    (trace s ++ evs ++
     cloudwatch_calls flags (cloudwatchService l)
       (cloudwatchPushTimeMetric flags) "Seconds" (Seconds (push_elapsed e)) ++
     cloudwatch_calls flags (cloudwatchService l)
       (cloudwatchSuccessMetric flags) "Count" (Count 1))%list.
Proof.
  intros Hh Hf. destruct l as [fl d ud cw].
  unfold cloudwatch_calls.
  destruct fl, cw; run_cycle; simpl_state; rewrite ?Hh;
    repeat split; flat_trace; cut_before_suffix.
Qed.

(** ** The claims about the loop *)

(** C2: when a turning loop meets a structural failure (base pull, layer
    deletion, or the commit or kill of the tag layer), [healthy] is false
    and the goroutine has returned; from then on nothing changes, whatever
    the outside would answer: [healthy] stays false, the loop stays halted
    and no further call is made.  Besides, no turn of the loop, from any
    process state, brings [healthy] back from false. *)
Theorem structural_failure_halts
        (flags : Flags) (PD : string -> option Duration)
        (p : Process) (l : Locals) (e : Engine)
        (Hp : Reachable flags PD p)
        (Hl : mode p = Looping l)
        (Hf : StructuralFailure flags e) :
  healthy (globals (step flags e p)) = false /\
  mode (step flags e p) = Halted /\
  (forall es : list Engine,
      healthy (globals (run flags es (step flags e p))) = false /\
      mode (run flags es (step flags e p)) = Halted /\
      trace (globals (run flags es (step flags e p))) =
      trace (globals (step flags e p))) /\
  (forall (es : list Engine) (q : Process),
      healthy (globals q) = false ->
      healthy (globals (run flags es q)) = false).
Proof.
  destruct (Reachable_LoopInv flags PD p Hp l Hl) as [Hh _].
  destruct p as [s m]. cbn [mode globals] in *. subst m.
  destruct (step_structural flags e s l Hh Hf) as (Hm & Hh' & _).
  repeat split.
  - exact Hh'.
  - exact Hm.
  - rewrite run_not_looping; [exact Hh' | rewrite Hm; discriminate].
  - rewrite run_not_looping; [exact Hm | rewrite Hm; discriminate].
  - rewrite run_not_looping; [reflexivity | rewrite Hm; discriminate].
  - intros es q. apply run_keeps_unhealthy.
Qed.

Lemma structural_failure_halts_witness :
  healthy (globals (step exampleFlagsBase (withKill (Some "gone") engineOk)
     (run exampleFlagsBase [engineOk]
          (runMonitor exampleFlagsBase exampleParseDuration zero)))) = false /\
  mode (step exampleFlagsBase (withKill (Some "gone") engineOk)
     (run exampleFlagsBase [engineOk]
          (runMonitor exampleFlagsBase exampleParseDuration zero))) = Halted.
Proof.
  destruct (structural_failure_halts exampleFlagsBase exampleParseDuration
              (run exampleFlagsBase [engineOk]
                   (runMonitor exampleFlagsBase exampleParseDuration zero))
              (mkLocals false (2 * Minute) (2 * Minute) true)
              (withKill (Some "gone") engineOk))
    as (H1 & H2 & _).
  - exists zero, [engineOk]. reflexivity.
  - reflexivity.
  - apply SF_Kill with (id := "c0ffee"); try reflexivity.
    + right. reflexivity.
    + eexists. split; reflexivity.
    + discriminate.
  - split; [exact H1 | exact H2].
Defined.

(** C10: when the loop halts on a structural failure, [status] holds the
    value true written at the start of that cycle and keeps it; for the
    rest of the life of the process the status handler answers 200 "true"
    and the health handler 503 "false". *)
Theorem status_true_after_halt
        (flags : Flags) (PD : string -> option Duration)
        (p : Process) (l : Locals) (e : Engine)
        (Hp : Reachable flags PD p)
        (Hl : mode p = Looping l)
        (Hf : StructuralFailure flags e) :
  forall es : list Engine,
    mode (run flags es (step flags e p)) = Halted /\
    status (globals (run flags es (step flags e p))) = true /\
    serve statusHandler (run flags es (step flags e p)) = Some (200, "true") /\
    serve healthHandler (run flags es (step flags e p)) = Some (503, "false").
Proof.
  intros es.
  destruct (Reachable_LoopInv flags PD p Hp l Hl) as [Hh _].
  destruct p as [s m]. cbn [mode globals] in *. subst m.
  destruct (step_structural flags e s l Hh Hf) as (Hm & Hh' & Hs).
  rewrite run_not_looping by (rewrite Hm; discriminate).
  repeat split.
  - exact Hm.
  - exact Hs.
  - unfold serve, alive, statusHandler. rewrite Hm, Hs. reflexivity.
  - unfold serve, alive, healthHandler. rewrite Hm, Hh'. reflexivity.
Qed.

Lemma status_true_after_halt_witness :
  serve statusHandler
        (run exampleFlags [engineOk; engineOk]
             (step exampleFlags (withHistory (inr "no such image") engineOk)
                   (runMonitor exampleFlags exampleParseDuration zero)))
  = Some (200, "true") /\
  serve healthHandler
        (run exampleFlags [engineOk; engineOk]
             (step exampleFlags (withHistory (inr "no such image") engineOk)
                   (runMonitor exampleFlags exampleParseDuration zero)))
  = Some (503, "false").
Proof.
  destruct (status_true_after_halt exampleFlags exampleParseDuration
              (runMonitor exampleFlags exampleParseDuration zero)
              (mkLocals true (120 * Second) (5 * Minute) false)
              (withHistory (inr "no such image") engineOk))
    with (es := [engineOk; engineOk])
    as (_ & _ & H1 & H2).
  - exists zero, []. reflexivity.
  - reflexivity.
  - apply SF_DeleteLayer with (err := "no such image"); try reflexivity.
    left. reflexivity.
  - split; [exact H1 | exact H2].
Defined.

(** C3: a cycle whose test pull or push fails leaves the loop turning with
    the interval of the next sleep at 30 seconds, [status] false and
    [healthy] as it was; the failure counter is incremented (and the
    failure metric put to CloudWatch when configured) while the success
    counter and the push summary are untouched.  After a failed test pull
    the cycle makes no call beyond that pull and the failure report; after
    a failed push nothing follows the push but the failure report.  The
    next turn of the loop opens by sleeping 30 seconds. *)
Theorem transient_failure_cycle
        (flags : Flags) (PD : string -> option Duration)
        (p : Process) (l : Locals) (e : Engine)
        (Hp : Reachable flags PD p)
        (Hl : mode p = Looping l)
        (Hf : TransientFailure flags e) :
  let p' := step flags e p in
  (exists l', mode p' = Looping l' /\ duration l' = 30 * Second) /\
  status (globals p') = false /\
  healthy (globals p') = healthy (globals p) /\
  promFailureMetric (globals p') = S (promFailureMetric (globals p)) /\
  promSuccessMetric (globals p') = promSuccessMetric (globals p) /\
  promPushMetric (globals p') = promPushMetric (globals p) /\
  (pull_test e <> None ->
   trace (globals p') =
   (trace (globals p) ++ sleep_calls l ++ pullTest_calls flags ++
    cloudwatch_calls flags (cloudwatchService l)
      (cloudwatchFailureMetric flags) "Count" (Count 1))%list) /\
  (pull_test e = None ->
   exists evs,
     trace (globals p') =
     (trace (globals p) ++ evs ++
      EvPush (fullImageRef (registryHost flags) (repository flags) "")
             (fullImageRef (registryHost flags) (repository flags) "")
             (Some (username flags, password flags))
      :: cloudwatch_calls flags (cloudwatchService l)
           (cloudwatchFailureMetric flags) "Count" (Count 1))%list) /\
  (forall e' : Engine, exists evs,
     trace (globals (step flags e' p')) =
     (trace (globals p') ++ EvSleep (30 * Second) :: evs)%list).
Proof.
  destruct (Reachable_LoopInv flags PD p Hp l Hl) as [Hh _].
  destruct p as [s m]. cbn [mode globals] in *. subst m.
  destruct (step_transient flags e s l Hh Hf)
    as (Hm & Hst & Hhe & Hfa & Hsu & Hpu & Hpull & Hpush).
  cbv zeta. repeat split; try assumption.
  - eexists. split; [exact Hm | reflexivity].
  - intros e'.
    destruct (step flags e (mkProcess s (Looping l))) as [s' m'].
    cbn [mode globals] in *. subst m'.
    apply (step_sleeps_first flags e' s'
             (with_duration (30 * Second) (with_firstLoop false l))).
    reflexivity.
Qed.

Lemma transient_failure_cycle_witness :
  status (globals (step exampleFlags (withPullTest (Some "timeout") engineOk)
     (run exampleFlags [engineOk]
          (runMonitor exampleFlags exampleParseDuration zero)))) = false /\
  trace (globals (step exampleFlags (withPullTest (Some "timeout") engineOk)
     (run exampleFlags [engineOk]
          (runMonitor exampleFlags exampleParseDuration zero)))) =
  (trace (globals (run exampleFlags [engineOk]
          (runMonitor exampleFlags exampleParseDuration zero))) ++
   [EvSleep (5 * Minute); EvNewPodmanClient;
    EvPull "app:latest" (Some ("user", "secret"))])%list.
Proof.
  destruct (transient_failure_cycle exampleFlags exampleParseDuration
              (run exampleFlags [engineOk]
                   (runMonitor exampleFlags exampleParseDuration zero))
              (mkLocals false (5 * Minute) (5 * Minute) false)
              (withPullTest (Some "timeout") engineOk))
    as (_ & H1 & _ & _ & _ & _ & H2 & _).
  - exists zero, [engineOk]. reflexivity.
  - reflexivity.
  - apply TF_PullTest. discriminate.
  - split; [exact H1 | apply H2; discriminate].
Defined.

(** C4: a cycle in which every step succeeds leaves the loop turning with
    the interval of the next sleep equal to the parsed [run-test-every]
    value, [status] true and [healthy] true; the success counter is
    incremented, the push duration is observed, and both are put to
    CloudWatch, last, when configured.  The next turn of the loop opens by
    sleeping the configured interval. *)
Theorem success_cycle
        (flags : Flags) (PD : string -> option Duration)
        (p : Process) (l : Locals) (e : Engine)
        (Hp : Reachable flags PD p)
        (Hl : mode p = Looping l)
        (Hs : Success flags e) :
  let p' := step flags e p in
  exists configured : Duration,
    PD (testInterval flags) = Some configured /\
    (exists l', mode p' = Looping l' /\ duration l' = configured) /\
    status (globals p') = true /\
    healthy (globals p') = true /\
    promSuccessMetric (globals p') = S (promSuccessMetric (globals p)) /\
    promFailureMetric (globals p') = promFailureMetric (globals p) /\
    promPushMetric (globals p') =
      (promPushMetric (globals p) ++ [push_elapsed e])%list /\
    (exists evs,
       trace (globals p') =
       (trace (globals p) ++ evs ++
        cloudwatch_calls flags (cloudwatchService l)
          (cloudwatchPushTimeMetric flags) "Seconds"
          (Seconds (push_elapsed e)) ++
        cloudwatch_calls flags (cloudwatchService l)
          (cloudwatchSuccessMetric flags) "Count" (Count 1))%list) /\
    (forall e' : Engine, exists evs,
       trace (globals (step flags e' p')) =
       (trace (globals p') ++ EvSleep configured :: evs)%list).
Proof.
  destruct (Reachable_LoopInv flags PD p Hp l Hl) as [Hh Hu].
  destruct p as [s m]. cbn [mode globals] in *. subst m.
  destruct (step_success flags e s l Hh Hs)
    as (Hm & Hst & Hhe & Hsu & Hfa & Hpu & Htr).
  cbv zeta. exists (userDuration l).
  repeat split; try assumption.
  - eexists. split; [exact Hm | reflexivity].
  - intros e'.
    destruct (step flags e (mkProcess s (Looping l))) as [s' m'].
    cbn [mode globals] in *. subst m'.
    apply (step_sleeps_first flags e' s'
             (with_duration (userDuration l) (with_firstLoop false l))).
    reflexivity.
Qed.

Lemma success_cycle_witness :
  exists configured : Duration,
    exampleParseDuration (testInterval exampleFlags) = Some configured /\
    (exists l',
        mode (step exampleFlags engineOk
                   (step exampleFlags (withPush (Some "503") engineOk)
                         (runMonitor exampleFlags exampleParseDuration zero)))
        = Looping l' /\ duration l' = configured) /\
    status (globals (step exampleFlags engineOk
                   (step exampleFlags (withPush (Some "503") engineOk)
                         (runMonitor exampleFlags exampleParseDuration zero))))
    = true.
Proof.
  destruct (success_cycle exampleFlags exampleParseDuration
              (step exampleFlags (withPush (Some "503") engineOk)
                    (runMonitor exampleFlags exampleParseDuration zero))
              (mkLocals false (30 * Second) (5 * Minute) false)
              engineOk)
    as (c & H1 & H2 & H3 & _).
  - exists zero, [withPush (Some "503") engineOk]. reflexivity.
  - reflexivity.
  - repeat split; try reflexivity.
    + left. reflexivity.
    + eexists. split; reflexivity.
    + eexists. reflexivity.
  - exists c. repeat split; assumption.
Defined.

(** ** The sleeps of the loop *)

Lemma sleeps_app (t u : list Event) :
  sleeps (t ++ u) = (sleeps t ++ sleeps u)%list.
Proof.
  induction t as [| ev t IH]; simpl.
  - reflexivity.
  - destruct ev; simpl; rewrite IH; reflexivity.
Qed.

Lemma In_sleeps_snoc (t : list Event) (ev : Event) (d : Duration) :
  In d (sleeps (t ++ [ev])) -> In d (sleeps t) \/ ev = EvSleep d.
Proof.
  rewrite sleeps_app. intros H. apply in_app_or in H.
  destruct H as [H | H]; [left; exact H |].
  destruct ev; simpl in H; try contradiction.
  destruct H as [<- | []]. right. reflexivity.
Qed.

(** Traces the sleep [H] back through the calls of the cycle. *)
Ltac back_through_cycle H Hdone Hd :=
  repeat (apply In_sleeps_snoc in H;
          destruct H as [H | H];
          [| first [discriminate H
                   | injection H as <-; apply Hd; reflexivity]]);
  apply Hdone, H.

Lemma step_SleepInv (flags : Flags) (PD : string -> option Duration)
      (e : Engine) (p : Process) :
  SleepInv flags PD p -> SleepInv flags PD (step flags e p).
Proof.
  destruct p as [s m]. unfold SleepInv. cbn [mode globals].
  destruct m as [l | | code | msg];
    try (unfold step; cbn [mode globals]; intros H; exact H).
  intros [Hdone Hnext]. destruct (Hnext l eq_refl) as [Hu Hd]. clear Hnext.
  destruct l as [fl d ud cw]. cbn [firstLoop duration userDuration] in *.
  unfold step; cbn [mode globals]; unfold_body.
  destruct fl, cw; simpl_state;
    repeat (next_answer; simpl_state);
    (split;
     [ intros d' Hin; back_through_cycle Hin Hdone Hd
     | intros l' Hl';
       first
         [ discriminate Hl'
         | injection Hl' as <-; cbn [firstLoop duration userDuration]; split;
           [ exact Hu
           | intros _; first [left; reflexivity | right; exact Hu] ] ] ]).
Qed.

Lemma run_SleepInv (flags : Flags) (PD : string -> option Duration)
      (es : list Engine) :
  forall p, SleepInv flags PD p -> SleepInv flags PD (run flags es p).
Proof.
  induction es as [| e es IH]; intros p Hp; simpl.
  - exact Hp.
  - apply IH, step_SleepInv, Hp.
Qed.

(** X11: the 120 seconds that [runMonitor] starts with never govern a
    sleep: every sleep of an execution lasts 30 seconds or the configured
    interval. *)
Lemma sleeps_retry_or_configured
      (flags : Flags) (PD : string -> option Duration) (es : list Engine)
      (d : Duration) :
  In d (sleeps (trace (globals (run flags es (runMonitor flags PD zero))))) ->
  retry_or_configured flags PD d.
Proof.
  assert (H : SleepInv flags PD (runMonitor flags PD zero)).
  { unfold SleepInv, runMonitor.
    destruct (PD (testInterval flags)) as [u |] eqn:Hu; cbn [mode globals];
      (split; [intros d' [] |]); intros l Hl; try discriminate.
    injection Hl as <-. cbn. split; [reflexivity | discriminate]. }
  apply (run_SleepInv flags PD es) in H. destruct H as [H _]. apply H.
Qed.
Lemma sleeps_retry_or_configured_witness :
  retry_or_configured exampleFlags exampleParseDuration (5 * Minute).
Proof.
  apply (sleeps_retry_or_configured exampleFlags exampleParseDuration
           [engineOk; engineOk]).
  left. reflexivity.
Defined.


(** ** The start of the orchestrator *)

(** C5, as the code has it: when [runMonitor] has started the loop, the
    interval that would govern the next sleep is 120 seconds whatever
    [run-test-every] was parsed to; it equals the configured interval
    exactly when that interval is 120 seconds. *)
Theorem initial_interval
        (flags : Flags) (PD : string -> option Duration) (s0 : State)
        (l : Locals)
        (Hl : mode (runMonitor flags PD s0) = Looping l) :
  duration l = 120 * Second /\
  PD (testInterval flags) = Some (userDuration l) /\
  (duration l = userDuration l <-> userDuration l = 120 * Second).
Proof.
  unfold runMonitor in Hl.
  destruct (PD (testInterval flags)) as [d |] eqn:Hd; cbn [mode] in Hl.
  - injection Hl as <-. cbn [duration userDuration].
    split; [reflexivity |]. split; [reflexivity |].
    split; intros H; [rewrite <- H | rewrite H]; reflexivity.
  - discriminate.
Qed.

Lemma initial_interval_witness :
  duration (mkLocals true (120 * Second) (5 * Minute) false) = 120 * Second /\
  exampleParseDuration (testInterval exampleFlags) = Some (5 * Minute).
Proof.
  destruct (initial_interval exampleFlags exampleParseDuration zero
              (mkLocals true (120 * Second) (5 * Minute) false))
    as (H1 & H2 & _).
  - reflexivity.
  - split; [exact H1 | exact H2].
Defined.

(** With [run-test-every] set to 5m, the loop starts with an interval of
    120 seconds, not the configured 300. *)
Lemma initial_interval_counterexample :
  exampleParseDuration (testInterval exampleFlags) = Some (300 * Second) /\
  exists l : Locals,
    mode (runMonitor exampleFlags exampleParseDuration zero) = Looping l /\
    duration l = 120 * Second /\
    duration l <> 300 * Second.
Proof.
  split.
  - reflexivity.
  - eexists. split; [reflexivity |]. split; [reflexivity | discriminate].
Qed.

(** ** The handlers *)

(** C7: the health handler answers 200 with body "true" when [healthy] is
    true and 503 with body "false" when it is false; the status handler
    answers 200 "true" when [status] is true and 400 "false" when it is
    false. *)
Theorem handlers_report_flags (s : State) :
  response (healthHandler s newResponseWriter) =
    (if healthy s then (200, "true") else (503, "false")) /\
  response (statusHandler s newResponseWriter) =
    (if status s then (200, "true") else (400, "false")).
Proof.
  unfold healthHandler, statusHandler.
  destruct (healthy s), (status s); split; reflexivity.
Qed.

(** ** The delete-top-layer step *)

(** Whenever the history call succeeds and some entry is tagged "latest",
    the step panics on the indexed assignment into the nil slice, before
    any remove call. *)
Lemma deleteTopLayer_latest (flags : Flags) (e : Engine) (s : State)
      (imageHistory : list HistoryResponse) :
  history e = inl imageHistory ->
  no_latest imageHistory = false ->
  deleteTopLayer flags e s =
  Panic "runtime error: index out of range"
        (record (EvHistory (baseLayer flags)) s).
Proof.
  intros Hh Hn. rewrite deleteTopLayer_eq. cbv zeta. rewrite Hh, Hn.
  reflexivity.
Qed.

(** C1 fails on the code: with a successful history call whose first entry
    is tagged "latest", [deleteTopLayer] ends in a run-time panic, and the
    only call it has made is the history call: no image is removed. *)
Theorem deleteTopLayer_latest_panics :
  stringInSlice "latest" (Tags (mkHistory "sha256:1f2e" ["latest"])) = true /\
  store [] 0 "sha256:1f2e" = None /\
  deleteTopLayer exampleFlags (withHistory (inl historyLatest) engineOk) zero =
  Panic "runtime error: index out of range"
        (mkState "" false false 0 0 [] [] [EvHistory "layer0"]).
Proof.
  repeat split.
Qed.

(** ** The tag-layer step *)

(** C9: in [createTagLayer], once the container is created and committed, a
    failure of the start call ends the process with exit code 1: the step
    does not return, and a turning loop that reaches it leaves a dead
    process.  A failure of the creation does the same; a failure of the
    commit or of the kill makes the step return false. *)
Theorem createTagLayer_start_failure
        (flags : Flags) (e : Engine) (s : State) (id : string)
        (Hcreate : create e = inl id)
        (Hcommit : commit e = None)
        (Hstart : start e <> None) :
  (exists s', createTagLayer flags e s = Exit 1 s') /\
  (forall l : Locals,
      healthy s = true -> pull_test e = None -> base_ok flags e ->
      delete_ok e ->
      mode (step flags e (mkProcess s (Looping l))) = Exited 1 /\
      alive (step flags e (mkProcess s (Looping l))) = false) /\
  (forall e' : Engine,
      (exists err, create e' = inr err) ->
      exists s', createTagLayer flags e' s = Exit 1 s') /\
  (forall e' : Engine,
      create e' = inl id -> commit e' <> None ->
      exists s', createTagLayer flags e' s = Ok false s') /\
  (forall e' : Engine,
      create e' = inl id -> commit e' = None -> start e' = None ->
      kill e' <> None ->
      exists s', createTagLayer flags e' s = Ok false s').
Proof.
  split; [| split; [| split; [| split]]].
  - unfold createTagLayer, bind, call, modify, os_Exit.
    situation. simpl_state. eexists. reflexivity.
  - intros l Hh Hpull Hbase Hdel. destruct l as [fl d ud cw].
    destruct fl, cw; run_cycle; split; reflexivity.
  - intros e' (err & He).
    unfold createTagLayer, bind, call, modify, os_Exit.
    rewrite He. eexists. reflexivity.
  - intros e' Hc Hco.
    unfold createTagLayer, bind, call, modify, ret.
    situation. simpl_state. eexists. reflexivity.
  - intros e' Hc Hco Hst Hk.
    unfold createTagLayer, bind, call, modify, ret.
    situation. simpl_state. eexists. reflexivity.
Qed.

Lemma createTagLayer_start_failure_witness :
  exists s',
    createTagLayer exampleFlags (withStart (Some "oci runtime error") engineOk)
                   zero = Exit 1 s'.
Proof.
  destruct (createTagLayer_start_failure exampleFlags
              (withStart (Some "oci runtime error") engineOk) zero "c0ffee")
    as (H & _).
  - reflexivity.
  - reflexivity.
  - discriminate.
  - exact H.
Defined.

(** ** Executions on concrete answers *)

Example first_cycle_calls :
  trace (globals (step exampleFlags engineOk
                       (runMonitor exampleFlags exampleParseDuration zero))) =
  [EvNewPodmanClient;
   EvPull "app:latest" (Some ("user", "secret"));
   EvHistory "layer0";
   EvCreate "quay.io/app:latest" "updatedcontainer1700000000";
   EvCommit "c0ffee"; EvStart "c0ffee"; EvKill "c0ffee" "SIGKILL";
   EvPush "quay.io/app:latest" "quay.io/app:latest" (Some ("user", "secret"))].
Proof. vm_compute. reflexivity. Qed.

Example base_pull_failure_halts :
  let p := step exampleFlagsBase (withPullBase (Some "denied") engineOk)
                (runMonitor exampleFlagsBase exampleParseDuration zero) in
  mode p = Halted /\ healthy (globals p) = false /\ status (globals p) = true.
Proof. vm_compute. repeat split. Qed.

Example commit_failure_halts :
  let p := step exampleFlags (withCommit (Some "no space") engineOk)
                (runMonitor exampleFlags exampleParseDuration zero) in
  mode p = Halted /\ healthy (globals p) = false.
Proof. vm_compute. repeat split. Qed.

Example create_failure_exits :
  mode (step exampleFlags (withCreate (inr "no such image") engineOk)
             (runMonitor exampleFlags exampleParseDuration zero)) = Exited 1.
Proof. vm_compute. reflexivity. Qed.

Example latest_entry_panics :
  let p := run exampleFlags
               [engineOk; withHistory (inl historyLatest) engineOk; engineOk]
               (runMonitor exampleFlags exampleParseDuration zero) in
  mode p = Panicked "runtime error: index out of range" /\
  serve healthHandler p = None /\
  sleeps (trace (globals p)) = [5 * Minute].
Proof. vm_compute. repeat split. Qed.

Example unparsable_interval_exits :
  mode (runMonitor exampleFlags (fun _ => None) zero) = Exited 1.
Proof. reflexivity. Qed.

(** * Further properties of the program *)

(** ** Membership in a slice *)

(** X1: [stringInSlice] answers true exactly when the value is an element
    of the slice; in particular it is false on the empty slice. *)
Theorem stringInSlice_In (value : string) (list : list string) :
  stringInSlice value list = true <-> In value list.
Proof.
  induction list as [| current rest IH]; simpl.
  - split; [discriminate | contradiction].
  - destruct (String.eqb_spec current value) as [E | N].
    + split; [intros _; left; exact E | reflexivity].
    + rewrite IH. split; [intros H; right; exact H |].
      intros [E | H]; [contradiction | exact H].
Qed.

(** ** The outcome of a cycle, read backwards *)

Lemma failed_false (err : error) : failed err = false -> err = None.
Proof. destruct err; [discriminate | reflexivity]. Qed.

Lemma failed_true (err : error) : failed err = true -> err <> None.
Proof. destruct err; [discriminate | discriminate]. Qed.

(** Turns the answers met along one path of the cycle into facts. *)
Ltac answers_to_facts :=
  repeat match goal with
  | H : failed _ = false |- _ => apply failed_false in H
  | H : failed _ = true |- _ => apply failed_true in H
  | H : negb (String.eqb _ _) = true |- _ =>
      apply negb_true_iff, String.eqb_neq in H
  | H : negb (String.eqb _ _) = false |- _ =>
      apply negb_false_iff, String.eqb_eq in H
  end.

(** Runs the cycle along every path, keeping the answers met. *)
Ltac every_path Hh :=
  unfold step; cbn [mode globals]; unfold_body; simpl_state;
  repeat (first [rewrite Hh | next_answer]; simpl_state).

Ltac situation_holds :=
  answers_to_facts; unfold base_ok, delete_ok, tag_ok;
  repeat match goal with |- _ /\ _ => split end; eauto.

Lemma step_halted_structural (flags : Flags) (e : Engine) (s : State)
      (l : Locals) :
  healthy s = true ->
  mode (step flags e (mkProcess s (Looping l))) = Halted ->
  StructuralFailure flags e.
Proof.
  intros Hh. destruct l as [fl d ud cw].
  destruct fl, cw; every_path Hh; cbn [mode]; intros Hm;
    try discriminate Hm;
    solve [ apply SF_PullBase; situation_holds
          | eapply SF_DeleteLayer; situation_holds
          | eapply SF_Commit; situation_holds
          | eapply SF_Kill; situation_holds ].
Qed.

Lemma step_looping_outcome (flags : Flags) (e : Engine) (s : State)
      (l l' : Locals) :
  healthy s = true ->
  mode (step flags e (mkProcess s (Looping l))) = Looping l' ->
  Success flags e \/ TransientFailure flags e.
Proof.
  intros Hh. destruct l as [fl d ud cw].
  destruct fl, cw; every_path Hh; cbn [mode]; intros Hm;
    try discriminate Hm;
    solve [ right; apply TF_PullTest; situation_holds
          | right; apply TF_PushTest; situation_holds
          | left; unfold Success; situation_holds ].
Qed.

Lemma step_exited_fatal (flags : Flags) (e : Engine) (s : State)
      (l : Locals) (code : Z) :
  healthy s = true ->
  mode (step flags e (mkProcess s (Looping l))) = Exited code ->
  code = 1 /\ FatalFailure flags e.
Proof.
  intros Hh. destruct l as [fl d ud cw].
  destruct fl, cw; every_path Hh; cbn [mode]; intros Hm;
    try discriminate Hm; injection Hm as <-; (split; [reflexivity |]);
    solve [ eapply FF_Create; situation_holds
          | eapply FF_Start; situation_holds ].
Qed.

Lemma step_panicked_latest (flags : Flags) (e : Engine) (s : State)
      (l : Locals) (msg : string) :
  healthy s = true ->
  mode (step flags e (mkProcess s (Looping l))) = Panicked msg ->
  LatestTagged flags e.
Proof.
  intros Hh. destruct l as [fl d ud cw].
  destruct fl, cw; every_path Hh; cbn [mode]; intros Hm;
    try discriminate Hm; unfold LatestTagged; situation_holds.
Qed.

Lemma step_fatal (flags : Flags) (e : Engine) (s : State) (l : Locals) :
  healthy s = true ->
  FatalFailure flags e ->
  mode (step flags e (mkProcess s (Looping l))) = Exited 1.
Proof.
  intros Hh Hf. destruct l as [fl d ud cw].
  destruct fl, cw; destruct Hf; run_cycle; reflexivity.
Qed.

Lemma step_latest (flags : Flags) (e : Engine) (s : State) (l : Locals) :
  healthy s = true ->
  LatestTagged flags e ->
  mode (step flags e (mkProcess s (Looping l))) =
  Panicked "runtime error: index out of range".
Proof.
  intros Hh (Hp & Hb & h & Hhist & Hn). destruct l as [fl d ud cw].
  destruct fl, cw; run_cycle; reflexivity.
Qed.

(** X2: a cycle of a turning loop makes the goroutine return, the process
    living on, exactly when it meets a structural failure: a failed base
    pull, a failed history call, or a failed commit or kill of the tag
    layer. *)
Theorem halts_iff_structural_failure
        (flags : Flags) (PD : string -> option Duration)
        (p : Process) (l : Locals) (e : Engine)
        (Hp : Reachable flags PD p)
        (Hl : mode p = Looping l) :
  mode (step flags e p) = Halted <-> StructuralFailure flags e.
Proof.
  destruct (Reachable_LoopInv flags PD p Hp l Hl) as [Hh _].
  destruct p as [s m]. cbn [mode globals] in *. subst m. split.
  - apply step_halted_structural, Hh.
  - intros Hf. apply (step_structural flags e s l Hh Hf).
Qed.

Lemma halts_iff_structural_failure_witness :
  mode (step exampleFlags (withHistory (inr "no such image") engineOk)
             (runMonitor exampleFlags exampleParseDuration zero)) = Halted <->
  StructuralFailure exampleFlags (withHistory (inr "no such image") engineOk).
Proof.
  apply (halts_iff_structural_failure exampleFlags exampleParseDuration
           (runMonitor exampleFlags exampleParseDuration zero)
           (mkLocals true (120 * Second) (5 * Minute) false)).
  - exists zero, []. reflexivity.
  - reflexivity.
Defined.

(** X3: a cycle of a turning loop leaves the loop turning exactly when
    every step succeeds or the failure is transient (the test pull fails,
    or all is well up to a failing push). *)
Theorem continues_iff_success_or_transient
        (flags : Flags) (PD : string -> option Duration)
        (p : Process) (l : Locals) (e : Engine)
        (Hp : Reachable flags PD p)
        (Hl : mode p = Looping l) :
  (exists l', mode (step flags e p) = Looping l') <->
  (Success flags e \/ TransientFailure flags e).
Proof.
  destruct (Reachable_LoopInv flags PD p Hp l Hl) as [Hh _].
  destruct p as [s m]. cbn [mode globals] in *. subst m. split.
  - intros (l' & Hl'). apply (step_looping_outcome flags e s l l' Hh Hl').
  - intros [Hs | Ht].
    + eexists. apply (step_success flags e s l Hh Hs).
    + eexists. apply (step_transient flags e s l Hh Ht).
Qed.

Lemma continues_iff_success_or_transient_witness :
  (exists l',
      mode (step exampleFlags (withPush (Some "503") engineOk)
                 (runMonitor exampleFlags exampleParseDuration zero))
      = Looping l') <->
  (Success exampleFlags (withPush (Some "503") engineOk) \/
   TransientFailure exampleFlags (withPush (Some "503") engineOk)).
Proof.
  apply (continues_iff_success_or_transient exampleFlags exampleParseDuration
           (runMonitor exampleFlags exampleParseDuration zero)
           (mkLocals true (120 * Second) (5 * Minute) false)).
  - exists zero, []. reflexivity.
  - reflexivity.
Defined.

(** X4: a cycle of a turning loop ends the process through [os.Exit]
    exactly when the creation of the tagging container fails, or its start
    fails after a successful commit; the exit code is then 1. *)
Theorem exits_iff_fatal_failure
        (flags : Flags) (PD : string -> option Duration)
        (p : Process) (l : Locals) (e : Engine)
        (Hp : Reachable flags PD p)
        (Hl : mode p = Looping l) :
  ((exists code, mode (step flags e p) = Exited code) <->
   FatalFailure flags e) /\
  (forall code, mode (step flags e p) = Exited code -> code = 1).
Proof.
  destruct (Reachable_LoopInv flags PD p Hp l Hl) as [Hh _].
  destruct p as [s m]. cbn [mode globals] in *. subst m. split; [split |].
  - intros (code & Hc). apply (step_exited_fatal flags e s l code Hh Hc).
  - intros Hf. exists 1. apply step_fatal; assumption.
  - intros code Hc. apply (step_exited_fatal flags e s l code Hh Hc).
Qed.

Lemma exits_iff_fatal_failure_witness :
  (exists code,
      mode (step exampleFlags (withCreate (inr "no such image") engineOk)
                 (runMonitor exampleFlags exampleParseDuration zero))
      = Exited code) <->
  FatalFailure exampleFlags (withCreate (inr "no such image") engineOk).
Proof.
  destruct (exits_iff_fatal_failure exampleFlags exampleParseDuration
              (runMonitor exampleFlags exampleParseDuration zero)
              (mkLocals true (120 * Second) (5 * Minute) false)
              (withCreate (inr "no such image") engineOk))
    as [H _].
  - exists zero, []. reflexivity.
  - reflexivity.
  - exact H.
Defined.

(** X5: a cycle of a turning loop ends in a run-time panic exactly when it
    gets to the layer deletion and the history holds an entry tagged
    "latest". *)
Theorem panics_iff_latest_tagged
        (flags : Flags) (PD : string -> option Duration)
        (p : Process) (l : Locals) (e : Engine)
        (Hp : Reachable flags PD p)
        (Hl : mode p = Looping l) :
  (exists msg, mode (step flags e p) = Panicked msg) <->
  LatestTagged flags e.
Proof.
  destruct (Reachable_LoopInv flags PD p Hp l Hl) as [Hh _].
  destruct p as [s m]. cbn [mode globals] in *. subst m. split.
  - intros (msg & Hm). apply (step_panicked_latest flags e s l msg Hh Hm).
  - intros Hf. eexists. apply step_latest; assumption.
Qed.

Lemma panics_iff_latest_tagged_witness :
  (exists msg,
      mode (step exampleFlags (withHistory (inl historyLatest) engineOk)
                 (runMonitor exampleFlags exampleParseDuration zero))
      = Panicked msg) <->
  LatestTagged exampleFlags (withHistory (inl historyLatest) engineOk).
Proof.
  apply (panics_iff_latest_tagged exampleFlags exampleParseDuration
           (runMonitor exampleFlags exampleParseDuration zero)
           (mkLocals true (120 * Second) (5 * Minute) false)).
  - exists zero, []. reflexivity.
  - reflexivity.
Defined.

(** ** The flag [healthy] and the state of the loop *)

Lemma step_healthy_mode (flags : Flags) (e : Engine) (p : Process) :
  healthy (globals p) = negb (is_halted (mode p)) ->
  healthy (globals (step flags e p)) = negb (is_halted (mode (step flags e p))).
Proof.
  destruct p as [s m]. cbn [mode globals].
  destruct m as [l | | code | msg];
    try (unfold step; cbn [mode globals]; intros H; exact H).
  cbn [is_halted negb]. intros Hh. destruct l as [fl d ud cw].
  destruct fl, cw; every_path Hh; cbn [mode is_halted negb];
    first [reflexivity | exact Hh].
Qed.

Lemma run_healthy_mode (flags : Flags) (es : list Engine) :
  forall p,
    healthy (globals p) = negb (is_halted (mode p)) ->
    healthy (globals (run flags es p)) =
    negb (is_halted (mode (run flags es p))).
Proof.
  induction es as [| e es IH]; intros p Hp; simpl.
  - exact Hp.
  - apply IH, step_healthy_mode, Hp.
Qed.

(** X6: in every process an execution reaches, [healthy] is false exactly
    when the goroutine has returned from the loop, and the health handler
    answers 503 "false" exactly then. *)
Theorem unhealthy_iff_halted
        (flags : Flags) (PD : string -> option Duration) (p : Process)
        (Hp : Reachable flags PD p) :
  (healthy (globals p) = false <-> mode p = Halted) /\
  (serve healthHandler p = Some (503, "false") <-> mode p = Halted).
Proof.
  assert (H : healthy (globals p) = negb (is_halted (mode p))).
  { destruct Hp as (s0 & es & ->). apply run_healthy_mode.
    unfold runMonitor. destruct (PD (testInterval flags)); reflexivity. }
  unfold serve, alive, healthHandler. rewrite H.
  destruct (mode p); cbn; repeat split; intros E; try discriminate E;
    reflexivity.
Qed.

Lemma unhealthy_iff_halted_witness :
  healthy (globals (step exampleFlags (withCommit (Some "no space") engineOk)
             (runMonitor exampleFlags exampleParseDuration zero))) = false <->
  mode (step exampleFlags (withCommit (Some "no space") engineOk)
             (runMonitor exampleFlags exampleParseDuration zero)) = Halted.
Proof.
  destruct (unhealthy_iff_halted exampleFlags exampleParseDuration
              (step exampleFlags (withCommit (Some "no space") engineOk)
                    (runMonitor exampleFlags exampleParseDuration zero)))
    as [H _].
  - exists zero, [withCommit (Some "no space") engineOk]. reflexivity.
  - exact H.
Defined.

(** ** Calls that are never made *)

Lemma step_no_remove (flags : Flags) (e : Engine) (p : Process) :
  existsb is_remove (trace (globals p)) = false ->
  existsb is_remove (trace (globals (step flags e p))) = false.
Proof.
  destruct p as [s m]. cbn [mode globals]. intros Hs.
  destruct m as [l | | code | msg];
    try (unfold step; cbn [mode globals]; exact Hs).
  unfold step; cbn [mode globals]; unfold_body.
  repeat (next_answer; simpl_state);
    rewrite ?existsb_app, ?Hs; reflexivity.
Qed.

(** X7: no execution started by [runMonitor] ever calls [images.Remove],
    whatever the outside answers. *)
Theorem never_removes_an_image
        (flags : Flags) (PD : string -> option Duration) (es : list Engine)
        (ids : list string) :
  ~ In (EvRemove ids)
       (trace (globals (run flags es (runMonitor flags PD zero)))).
Proof.
  assert (H : forall p,
             existsb is_remove (trace (globals p)) = false ->
             existsb is_remove (trace (globals (run flags es p))) = false).
  { induction es as [| e es IH]; intros p Hp; simpl.
    - exact Hp.
    - apply IH, step_no_remove, Hp. }
  intros Hin.
  assert (Hex : existsb is_remove
                  (trace (globals (run flags es (runMonitor flags PD zero))))
                = true).
  { apply existsb_exists. exists (EvRemove ids). split; [exact Hin | reflexivity]. }
  rewrite H in Hex; [discriminate |].
  unfold runMonitor. destruct (PD (testInterval flags)); reflexivity.
Qed.

Lemma step_no_put_metric (flags : Flags) (e : Engine) (p : Process) :
  (forall l, mode p = Looping l -> cloudwatchService l = false) ->
  existsb is_put_metric (trace (globals p)) = false ->
  (forall l, mode (step flags e p) = Looping l -> cloudwatchService l = false) /\
  existsb is_put_metric (trace (globals (step flags e p))) = false.
Proof.
  destruct p as [s m]. cbn [mode globals]. intros Hcw Hs.
  destruct m as [l | | code | msg];
    try (unfold step; cbn [mode globals]; split; [exact Hcw | exact Hs]).
  specialize (Hcw l eq_refl). destruct l as [fl d ud cw].
  cbn [cloudwatchService] in Hcw. subst cw.
  unfold step; cbn [mode globals]; unfold_body. simpl_state.
  repeat (next_answer; simpl_state);
    (split;
     [ intros l' Hl'; first [discriminate Hl' | injection Hl' as <-; reflexivity]
     | rewrite ?existsb_app, ?Hs; reflexivity ]).
Qed.

Lemma run_no_put_metric
      (flags : Flags) (PD : string -> option Duration) (es : list Engine) :
  cloudwatch_configured flags = false ->
  existsb is_put_metric
          (trace (globals (run flags es (runMonitor flags PD zero)))) = false.
Proof.
  intros Hoff.
  assert (H : forall p,
     (forall l, mode p = Looping l -> cloudwatchService l = false) ->
     existsb is_put_metric (trace (globals p)) = false ->
     (forall l, mode (run flags es p) = Looping l -> cloudwatchService l = false) /\
     existsb is_put_metric (trace (globals (run flags es p))) = false).
  { induction es as [| e es IH]; intros p H1 H2; simpl.
    - split; assumption.
    - destruct (step_no_put_metric flags e p H1 H2) as [H3 H4].
      apply IH; assumption. }
  apply H.
  - unfold runMonitor. destruct (PD (testInterval flags)); cbn [mode];
      intros l Hl; [| discriminate Hl].
    injection Hl as <-. exact Hoff.
  - unfold runMonitor. destruct (PD (testInterval flags)); reflexivity.
Qed.

(** X8: when the access key, the secret key or the namespace of CloudWatch
    is empty, no execution ever puts a metric to CloudWatch. *)
Theorem cloudwatch_off_no_put
        (flags : Flags) (PD : string -> option Duration) (es : list Engine)
        (namespace metricName unitName : string) (v : MetricValue)
        (Hoff : awsAccessKey flags = "" \/ awsSecretKey flags = "" \/
                cloudwatchNamespace flags = "") :
  ~ In (EvPutMetricData namespace metricName unitName v)
       (trace (globals (run flags es (runMonitor flags PD zero)))).
Proof.
  intros Hin.
  assert (Hc : cloudwatch_configured flags = false).
  { unfold cloudwatch_configured.
    destruct Hoff as [H | [H | H]]; rewrite H; cbn;
      rewrite ?andb_false_r; reflexivity. }
  pose proof (run_no_put_metric flags PD es Hc) as Hno.
  assert (Hex : existsb is_put_metric
                  (trace (globals (run flags es (runMonitor flags PD zero))))
                = true).
  { apply existsb_exists. eexists. split; [exact Hin | reflexivity]. }
  rewrite Hno in Hex. discriminate.
Qed.

Lemma cloudwatch_off_no_put_witness :
  ~ In (EvPutMetricData "" "MonitorSuccess" "Count" (Count 1))
       (trace (globals (run exampleFlags [engineOk; engineOk]
                            (runMonitor exampleFlags exampleParseDuration zero)))).
Proof.
  apply (cloudwatch_off_no_put exampleFlags exampleParseDuration
           [engineOk; engineOk]).
  left. reflexivity.
Defined.

(** ** Accounting of the cycles *)

(** A cycle after which the loop goes on has incremented exactly one of the
    two counters, has slept unless it was the first, and leaves
    [firstLoop] false. *)
Lemma step_accounting (flags : Flags) (e : Engine) (s : State)
      (l l' : Locals) :
  mode (step flags e (mkProcess s (Looping l))) = Looping l' ->
  let s' := globals (step flags e (mkProcess s (Looping l))) in
  (promSuccessMetric s' + promFailureMetric s' =
   S (promSuccessMetric s + promFailureMetric s))%nat /\
  List.length (sleeps (trace s')) =
    (List.length (sleeps (trace s)) + (if firstLoop l then 0 else 1))%nat /\
  firstLoop l' = false.
Proof.
  destruct l as [fl d ud cw].
  unfold step; cbn [mode globals]; unfold_body.
  destruct fl, cw; simpl_state;
    repeat (next_answer; simpl_state);
    cbn [mode globals]; intros Hm; try discriminate Hm;
    injection Hm as <-; simpl_state;
    rewrite ?sleeps_app, ?length_app; cbn [sleeps List.length];
    repeat split; lia.
Qed.

Lemma run_looping_prefix (flags : Flags) (es : list Engine) (e : Engine)
      (p : Process) (l : Locals) :
  mode (run flags es (step flags e p)) = Looping l ->
  exists l', mode (step flags e p) = Looping l'.
Proof.
  intros H. destruct (mode (step flags e p)) as [l' | | code | msg] eqn:E.
  - exists l'. reflexivity.
  - rewrite run_not_looping in H by (rewrite E; discriminate). congruence.
  - rewrite run_not_looping in H by (rewrite E; discriminate). congruence.
  - rewrite run_not_looping in H by (rewrite E; discriminate). congruence.
Qed.

Lemma run_accounting (flags : Flags) (es : list Engine) :
  forall (p : Process) (l0 l : Locals),
    mode p = Looping l0 ->
    mode (run flags es p) = Looping l ->
    (promSuccessMetric (globals (run flags es p)) +
     promFailureMetric (globals (run flags es p)) =
     promSuccessMetric (globals p) + promFailureMetric (globals p) +
     List.length es)%nat /\
    (List.length (sleeps (trace (globals (run flags es p)))) +
     (if firstLoop l0 then match es with [] => 0 | _ => 1 end else 0) =
     List.length (sleeps (trace (globals p))) + List.length es)%nat.
Proof.
  induction es as [| e es IH]; intros p l0 l Hl0 Hl; simpl in *.
  - split; [lia | destruct (firstLoop l0); lia].
  - destruct (run_looping_prefix flags es e p l Hl) as (l1 & Hl1).
    destruct p as [s m]. cbn [mode globals] in *. subst m.
    destruct (step_accounting flags e s l0 l1 Hl1) as (Hc & Hsl & Hf).
    cbv zeta in Hc, Hsl.
    destruct (IH _ l1 l Hl1 Hl) as (Hc' & Hsl').
    rewrite Hf in Hsl'.
    split; [lia | destruct (firstLoop l0); lia].
Qed.

(** X9: while the loop is turning, the success and failure counters add up
    to the number of cycles run: every cycle that lets the loop go on
    increments exactly one of them. *)
Theorem counters_count_cycles
        (flags : Flags) (PD : string -> option Duration) (es : list Engine)
        (l : Locals)
        (Hl : mode (run flags es (runMonitor flags PD zero)) = Looping l) :
  (promSuccessMetric (globals (run flags es (runMonitor flags PD zero))) +
   promFailureMetric (globals (run flags es (runMonitor flags PD zero))) =
   List.length es)%nat.
Proof.
  destruct (mode (runMonitor flags PD zero)) as [l0 | | code | msg] eqn:E;
    try (rewrite run_not_looping in Hl by (rewrite E; discriminate);
         congruence).
  destruct (run_accounting flags es _ l0 l E Hl) as [H _].
  rewrite H. unfold runMonitor.
  destruct (PD (testInterval flags)); reflexivity.
Qed.

Lemma counters_count_cycles_witness :
  (promSuccessMetric
     (globals (run exampleFlags [engineOk; withPush (Some "503") engineOk]
                   (runMonitor exampleFlags exampleParseDuration zero))) +
   promFailureMetric
     (globals (run exampleFlags [engineOk; withPush (Some "503") engineOk]
                   (runMonitor exampleFlags exampleParseDuration zero))) =
   2)%nat.
Proof.
  apply (counters_count_cycles exampleFlags exampleParseDuration
           [engineOk; withPush (Some "503") engineOk]
           (mkLocals false (30 * Second) (5 * Minute) false)).
  reflexivity.
Defined.

(** X10: while the loop is turning, it has slept once between two
    consecutive cycles and not before the first: after [n] cycles there
    are [n - 1] sleeps, and [firstLoop] is still true only before the
    first cycle. *)
Theorem sleeps_between_cycles
        (flags : Flags) (PD : string -> option Duration) (es : list Engine)
        (l : Locals)
        (Hl : mode (run flags es (runMonitor flags PD zero)) = Looping l) :
  List.length (sleeps (trace (globals (run flags es (runMonitor flags PD zero)))))
  = Nat.pred (List.length es) /\
  (firstLoop l = true <-> es = []).
Proof.
  destruct (mode (runMonitor flags PD zero)) as [l0 | | code | msg] eqn:E;
    try (rewrite run_not_looping in Hl by (rewrite E; discriminate);
         congruence).
  destruct (run_accounting flags es _ l0 l E Hl) as [_ H].
  assert (Hf : firstLoop l0 = true /\
               sleeps (trace (globals (runMonitor flags PD zero))) = []).
  { revert E. unfold runMonitor.
    destruct (PD (testInterval flags)); cbn [mode globals]; intros E;
      [| discriminate E].
    injection E as <-. split; reflexivity. }
  destruct Hf as [Hf Hz]. rewrite Hf, Hz in H. cbn [List.length] in H.
  split.
  - destruct es; simpl in *; lia.
  - destruct es as [| e es]; simpl in *.
    + rewrite E in Hl. injection Hl as <-. split; [reflexivity | intros _; exact Hf].
    + destruct (run_looping_prefix flags es e _ l Hl) as (l1 & Hl1).
      split; [| discriminate].
      intros Ht. exfalso.
      destruct (runMonitor flags PD zero) as [s m]. cbn [mode] in E. subst m.
      destruct (step_accounting flags e s l0 l1 Hl1) as (_ & _ & Hf1).
      clear H.
      assert (Hk : forall es' p l1 l, mode p = Looping l1 ->
                 firstLoop l1 = false ->
                 mode (run flags es' p) = Looping l -> firstLoop l = false).
      { induction es' as [| e' es' IH']; intros p' l1' l' Hm Hfl Hr; simpl in Hr.
        - rewrite Hm in Hr. injection Hr as <-. exact Hfl.
        - destruct (run_looping_prefix flags es' e' p' l' Hr) as (l2 & Hl2).
          destruct p' as [s' m']. cbn [mode] in Hm. subst m'.
          destruct (step_accounting flags e' s' l1' l2 Hl2) as (_ & _ & Hf2).
          apply (IH' _ l2 l' Hl2 Hf2 Hr). }
      rewrite (Hk es _ l1 l Hl1 Hf1 Hl) in Ht. discriminate.
Qed.

Lemma sleeps_between_cycles_witness :
  List.length
    (sleeps (trace (globals (run exampleFlags
                                 [engineOk; withPullTest (Some "timeout") engineOk;
                                  engineOk]
                                 (runMonitor exampleFlags exampleParseDuration
                                             zero))))) = 2%nat.
Proof.
  apply (sleeps_between_cycles exampleFlags exampleParseDuration
           [engineOk; withPullTest (Some "timeout") engineOk; engineOk]
           (mkLocals false (5 * Minute) (5 * Minute) false)).
  reflexivity.
Defined.

(** X12: a cycle observes the duration of the test pull exactly when that
    pull succeeds, however the cycle goes on afterwards (success, failure,
    halt, exit or panic); a failed test pull observes nothing. *)
Theorem pull_time_observed
        (flags : Flags) (p : Process) (l : Locals) (e : Engine)
        (Hl : mode p = Looping l) :
  promPullMetric (globals (step flags e p)) =
  if failed (pull_test e) then promPullMetric (globals p)
  else (promPullMetric (globals p) ++ [pull_elapsed e])%list.
Proof.
  destruct p as [s m]. cbn [mode globals] in *. subst m.
  unfold step; cbn [mode globals]; unfold_body.
  repeat (next_answer; simpl_state); reflexivity.
Qed.

Lemma pull_time_observed_witness :
  promPullMetric
    (globals (step exampleFlags (withHistory (inl historyLatest) engineOk)
                   (runMonitor exampleFlags exampleParseDuration zero)))
  = [2 * Second].
Proof.
  apply (pull_time_observed exampleFlags
           (runMonitor exampleFlags exampleParseDuration zero)
           (mkLocals true (120 * Second) (5 * Minute) false)
           (withHistory (inl historyLatest) engineOk)).
  reflexivity.
Defined.

(** ** Start-up *)





(** ** The clean-up of containers *)

Lemma clearAllContainers_range_calls (d : DockerClient)
      (containers : list APIContainers) :
  forall calls,
  exists removed rest,
    filter not_monitor containers = (removed ++ rest)%list /\
    snd (clearAllContainers_range d containers calls) =
      (calls ++ map removal_of removed)%list /\
    (fst (clearAllContainers_range d containers calls) = true -> rest = []) /\
    (fst (clearAllContainers_range d containers calls) = false ->
     exists before last,
       removed = (before ++ [last])%list /\
       failed (RemoveContainer_answer d (calls ++ map removal_of before)
                                      (Container_ID last)) = true).
Proof.
  induction containers as [| c cs IH]; intros calls; simpl.
  - exists [], []. simpl. rewrite app_nil_r.
    repeat split; try reflexivity. discriminate.
  - unfold not_monitor at 1.
    destruct (stringInSlice "monitor" (Names c)); cbn [negb].
    + apply IH.
    + destruct (failed (RemoveContainer_answer d calls (Container_ID c))) eqn:E.
      * exists [c], (filter not_monitor cs). cbn [fst snd map].
        repeat split; try reflexivity; try discriminate.
        intros _. exists [], c. cbn [map]. rewrite app_nil_r.
        split; [reflexivity | exact E].
      * destruct (IH (calls ++ [RemoveContainer (Container_ID c) true true])%list)
          as (removed & rest & Hf & Hs & Ht & Hfalse).
        exists (c :: removed), rest. rewrite Hf, Hs. cbn [map].
        rewrite <- app_assoc. repeat split; try assumption.
        intros Hb. destruct (Hfalse Hb) as (before & last & -> & Hlast).
        exists (c :: before), last. split; [reflexivity |].
        cbn [map]. rewrite <- app_assoc in Hlast. exact Hlast.
Qed.

(** X15: when [clearAllContainers] returns true, the listing succeeded and
    the calls made are the listing followed by the forced removal, with
    volumes, of every listed container that has no name "monitor", in the
    order listed. *)
Theorem clearAllContainers_success
        (d : DockerClient)
        (Hok : fst (clearAllContainers d) = true) :
  exists containers,
    ListContainers_answer d [] = inl containers /\
    snd (clearAllContainers d) =
    ListContainers true :: map removal_of (filter not_monitor containers).
Proof.
  revert Hok. unfold clearAllContainers.
  destruct (ListContainers_answer d []) as [cs | err]; [| discriminate].
  intros Hok. exists cs. split; [reflexivity |].
  destruct (clearAllContainers_range_calls d cs [ListContainers true])
    as (removed & rest & Hf & Hs & Ht & _).
  rewrite Hs, Hf, (Ht Hok), app_nil_r. reflexivity.
Qed.

Lemma clearAllContainers_success_witness :
  exists containers,
    ListContainers_answer exampleDocker [] = inl containers /\
    snd (clearAllContainers exampleDocker) =
    ListContainers true :: map removal_of (filter not_monitor containers).
Proof.
  apply (clearAllContainers_success exampleDocker). reflexivity.
Defined.

(** X16: every removal [clearAllContainers] asks for is forced, removes
    the volumes, and is for a listed container that has no name
    "monitor". *)
Theorem clearAllContainers_spares_monitor
        (d : DockerClient) (id : string) (removeVolumes force : bool)
        (Hin : In (RemoveContainer id removeVolumes force)
                  (snd (clearAllContainers d))) :
  removeVolumes = true /\ force = true /\
  exists containers container,
    ListContainers_answer d [] = inl containers /\
    In container containers /\
    Container_ID container = id /\
    stringInSlice "monitor" (Names container) = false.
Proof.
  revert Hin. unfold clearAllContainers.
  destruct (ListContainers_answer d []) as [cs | err].
  - destruct (clearAllContainers_range_calls d cs [ListContainers true])
      as (removed & rest & Hf & Hs & _). rewrite Hs.
    intros [Hl | Hin]; [discriminate Hl |].
    apply in_map_iff in Hin. destruct Hin as (c & Hc & Hin).
    injection Hc as <- <- <-.
    assert (Hfc : In c (filter not_monitor cs)).
    { rewrite Hf. apply in_or_app. left. exact Hin. }
    apply filter_In in Hfc. destruct Hfc as [Hcs Hn].
    repeat split. exists cs, c. repeat split; try assumption.
    unfold not_monitor in Hn. apply negb_true_iff in Hn. exact Hn.
  - intros [Hl | []]. discriminate Hl.
Qed.

Lemma clearAllContainers_spares_monitor_witness :
  exists containers container,
    ListContainers_answer exampleDocker [] = inl containers /\
    In container containers /\
    Container_ID container = "c3" /\
    stringInSlice "monitor" (Names container) = false.
Proof.
  apply (clearAllContainers_spares_monitor exampleDocker "c3" true true).
  simpl. right. right. left. reflexivity.
Defined.

(** X17: when [clearAllContainers] returns false, either the listing
    failed and nothing else was called, or the last call made is a removal
    that failed: no container is removed after a failed removal. *)
Theorem clearAllContainers_failure
        (d : DockerClient)
        (Hko : fst (clearAllContainers d) = false) :
  (exists err, ListContainers_answer d [] = inr err /\
               snd (clearAllContainers d) = [ListContainers true]) \/
  (exists calls id,
      snd (clearAllContainers d) =
        (calls ++ [RemoveContainer id true true])%list /\
      failed (RemoveContainer_answer d calls id) = true).
Proof.
  revert Hko. unfold clearAllContainers.
  destruct (ListContainers_answer d []) as [cs | err].
  - intros Hko. right.
    destruct (clearAllContainers_range_calls d cs [ListContainers true])
      as (removed & rest & Hf & Hs & _ & Hfalse).
    destruct (Hfalse Hko) as (before & last & -> & Hlast).
    exists ([ListContainers true] ++ map removal_of before)%list,
           (Container_ID last).
    split; [| exact Hlast].
    rewrite Hs, map_app, app_assoc. reflexivity.
  - intros _. left. exists err. split; reflexivity.
Qed.

Lemma clearAllContainers_failure_witness :
  (exists err, ListContainers_answer exampleDockerBusy [] = inr err /\
               snd (clearAllContainers exampleDockerBusy) = [ListContainers true]) \/
  (exists calls id,
      snd (clearAllContainers exampleDockerBusy) =
        (calls ++ [RemoveContainer id true true])%list /\
      failed (RemoveContainer_answer exampleDockerBusy calls id) = true).
Proof.
  apply (clearAllContainers_failure exampleDockerBusy). reflexivity.
Defined.

(** ** The clean-up of images *)

Section CleanupFacts.

Variable ToLower : string -> string.
Variable UNDER_DOCKER : string.

Lemma imagesFound_range_true (skipImages : list (string * bool))
      (images : list string) :
  imagesFound_range skipImages images true = true.
Proof.
  induction images as [| image rest IH]; simpl.
  - reflexivity.
  - destruct (toSkip skipImages image); exact IH.
Qed.

Lemma imagesFound_range_nonempty (skipImages : list (string * bool))
      (images : list string) :
  imagesFound_range skipImages images false = true -> images <> [].
Proof.
  destruct images; [discriminate | discriminate].
Qed.

Lemma clearAllImages_loop_in_range (d : DockerClient) (fuel : nat) :
  forall skipImages calls,
    fst (clearAllImages_loop ToLower UNDER_DOCKER fuel d skipImages calls)
    <> Some SliceOutOfRange.
Proof.
  induction fuel as [| fuel IH]; intros skipImages calls; simpl.
  - discriminate.
  - destruct (ListImages_answer d calls) as [images | err]; [| discriminate].
    destruct (imagesFound_range skipImages images false) eqn:Hfound;
      cbn [negb]; [| discriminate].
    apply imagesFound_range_nonempty in Hfound.
    destruct images as [| image rest]; [contradiction |].
    unfold slice_to. cbn [List.length Nat.leb firstn].
    destruct (removeImages_range ToLower UNDER_DOCKER d [image] false
                                 skipImages (calls ++ [ListImages true]))
      as [b calls' | removed skip' calls']; [discriminate |].
    destruct removed; cbn [negb]; [apply IH | discriminate].
Qed.

(** X18: the slice expression [images[:1]] of [clearAllImages] is never
    out of range: it is reached only with a non-empty listing. *)
Theorem clearAllImages_slice_in_range (d : DockerClient) (fuel : nat) :
  fst (clearAllImages ToLower UNDER_DOCKER fuel d) <> Some SliceOutOfRange.
Proof.
  apply clearAllImages_loop_in_range.
Qed.

(** X19: when the first listing is not empty and the removal of its first
    image fails, [clearAllImages] returns at once, after these two calls:
    true when UNDER_DOCKER lowers to "true" (the image is still there),
    false otherwise. *)
Theorem clearAllImages_failed_removal
        (d : DockerClient) (fuel : nat) (image : string) (rest : list string)
        (Hlist : ListImages_answer d [] = inl (image :: rest))
        (Hremove : failed (RemoveImage_answer d [ListImages true] image) = true) :
  clearAllImages ToLower UNDER_DOCKER (S fuel) d =
  (Some (Returned (String.eqb (ToLower UNDER_DOCKER) "true")),
   [ListImages true; RemoveImage image]).
Proof.
  unfold clearAllImages. cbn [clearAllImages_loop]. rewrite Hlist.
  cbn [imagesFound_range toSkip existsb]. rewrite imagesFound_range_true.
  cbn [negb]. unfold slice_to. cbn [List.length Nat.leb firstn app].
  cbn [removeImages_range toSkip existsb app]. rewrite Hremove.
  destruct (String.eqb (ToLower UNDER_DOCKER) "true"); reflexivity.
Qed.

Lemma clearAllImages_loop_turns (d : DockerClient)
      (Hlist : forall calls, exists image rest,
          ListImages_answer d calls = inl (image :: rest))
      (Hremove : forall calls id, RemoveImage_answer d calls id = None)
      (fuel : nat) :
  forall calls,
    fst (clearAllImages_loop ToLower UNDER_DOCKER fuel d [] calls) = None.
Proof.
  induction fuel as [| fuel IH]; intros calls; simpl.
  - reflexivity.
  - destruct (Hlist calls) as (image & rest & ->).
    cbn [imagesFound_range toSkip existsb]. rewrite imagesFound_range_true.
    cbn [negb]. unfold slice_to. cbn [List.length Nat.leb firstn].
    cbn [removeImages_range toSkip existsb]. rewrite Hremove.
    cbn [failed negb]. apply IH.
Qed.

(** X20: as long as the client lists some image and every removal
    succeeds, [clearAllImages] does not return: after any number of rounds
    its loop is still turning. *)
Theorem clearAllImages_keeps_turning
        (d : DockerClient) (fuel : nat)
        (Hlist : forall calls, exists image rest,
            ListImages_answer d calls = inl (image :: rest))
        (Hremove : forall calls id, RemoveImage_answer d calls id = None) :
  fst (clearAllImages ToLower UNDER_DOCKER fuel d) = None.
Proof.
  apply clearAllImages_loop_turns; assumption.
Qed.

End CleanupFacts.

Lemma clearAllImages_failed_removal_witness :
  clearAllImages (fun s => s) "true" 1 exampleDocker =
  (Some (Returned true), [ListImages true; RemoveImage "img1"]).
Proof.
  apply (clearAllImages_failed_removal (fun s => s) "true" exampleDocker 0
           "img1" ["img2"]); reflexivity.
Defined.

Lemma clearAllImages_keeps_turning_witness :
  fst (clearAllImages (fun s => s) "" 5 exampleDockerBusy) = None.
Proof.
  apply (clearAllImages_keeps_turning (fun s => s) "" exampleDockerBusy 5).
  - intros calls. exists "img1", ["img2"]. reflexivity.
  - intros calls id. reflexivity.
Defined.
